(** * dsx: a query builder in front of Cloud Datastore

    A shallow embedding of [dsx.go] and the properties of its builder,
    its execution methods and its batch operations.

    The Go package is a thin layer over the client library
    [cloud.google.com/go/datastore].  The library is not part of the
    package; it appears here in two ways:

    - the values the package builds and hands over (keys, queries,
      aggregation queries) are plain data, in [Module datastore], and
      keep the qualified names they have in the Go source;
    - the calls that reach the client ([GetAll], [Run], [Next], ...)
      are fields of a record [Backend] over an arbitrary state [Store],
      so every theorem holds for every behaviour of the backend.

    Execution is written in a small monad [M] that threads a [World]:
    the backend state, the chronological list of calls made to the
    client library and the lines written with [log.Println]. *)

From stdpp Require Import base strings list gmap.
From Stdlib Require Import ZArith Lia.

Set Warnings "-register-all".

(** ** Values of the Go run time *)

(** [context.Context]: only its identity matters to this package, which
    passes it on untouched. *)
Definition Context : Type := nat.

(** A slice is [nil] or a sequence of elements.  Capacity is an
    allocation hint without observable effect on the functions below
    and is not represented. *)
Definition slice (A : Type) : Type := option (list A).

Definition len {A} (s : slice A) : nat :=
  match s with
  | None => 0
  | Some l => length l
  end.

(** [append(s, x)] *)
Definition append {A} (s : slice A) (x : A) : slice A :=
  match s with
  | None => Some [x]
  | Some l => Some (l ++ [x])
  end.

(** [append(s, xs...)], one element after the other. *)
Definition append_all {A} (s : slice A) (xs : list A) : slice A :=
  foldl append s xs.

(** [int] is 64 bits wide; [add64] is its addition. *)
Definition min_int : Z := (- 2 ^ 63)%Z.
Definition max_int : Z := (2 ^ 63 - 1)%Z.

Definition wrap64 (z : Z) : Z :=
  ((z + 2 ^ 63) mod 2 ^ 64 - 2 ^ 63)%Z.

Definition add64 (a b : Z) : Z := wrap64 (a + b).

(** [s[i:j]]: a run-time panic ([None]) unless [0 <= i <= j <= len(s)].
    (Go compares [j] with the capacity; the package never slices past
    the length.) *)
Definition slice_range {A} (l : list A) (i j : Z) : option (list A) :=
  if ((0 <=? i) && (i <=? j) && (j <=? Z.of_nat (length l)))%Z
  then Some (take (Z.to_nat (j - i)) (drop (Z.to_nat i) l))
  else None.

(** ** The client library's data *)

Module datastore.

(** [datastore.Key] *)
Inductive Key : Type :=
  MkKey { Kind : string; ID : Z; Name : string; Parent : option Key }.

(** [datastore.NameKey(kind, name, parent)] *)
Definition NameKey (kind name : string) (parent : option Key) : Key :=
  {| Kind := kind; ID := 0; Name := name; Parent := parent |}.

(** [datastore.Cursor]: an opaque position; [cc] is its byte content. *)
Record Cursor : Type := MkCursor { cc : string }.

(** The oneof of a [datastorepb.Value]. *)
Inductive pbValue : Type :=
| pb_unset
| pb_NullValue
| pb_BooleanValue (b : bool)
| pb_IntegerValue (n : Z)
| pb_StringValue (s : string).

(** [GetIntegerValue] of a [datastorepb.Value] pointer: the getter is
    nil-safe and answers 0 unless the oneof holds an integer. *)
Definition GetIntegerValue (v : option pbValue) : Z :=
  match v with
  | Some (pb_IntegerValue n) => n
  | _ => 0%Z
  end.

(** Errors made by the client library and its transport. *)
Inductive error : Type :=
| iterator_Done
| ErrNoSuchEntity
| status (code : nat) (msg : string)
| wrap (msg : string) (inner : error).

(** [errors.Is(e, iterator.Done)] *)
Fixpoint is_Done (e : error) : bool :=
  match e with
  | iterator_Done => true
  | wrap _ inner => is_Done inner
  | _ => false
  end.

(** [interface{}]: a value together with its dynamic type.  Filter
    values go to the library, and aggregation results come back, at
    this type. *)
Inductive any : Type :=
| any_nil
| any_string (s : string)
| any_int (n : Z)
| any_bool (b : bool)
| any_slice (l : list any)
| any_Key (k : option Key)
| any_pbValue (v : option pbValue).

(** The [%T] verb. *)
Definition type_name (v : any) : string :=
  match v with
  | any_nil => "<nil>"
  | any_string _ => "string"
  | any_int _ => "int"
  | any_bool _ => "bool"
  | any_slice _ => "[]interface {}"
  | any_Key _ => "*datastore.Key"
  | any_pbValue _ => "*datastorepb.Value"
  end.

(** [datastore.Query] is an immutable value of the client library:
    each method returns a derived query.  A query is represented by
    the way it was built, the kind given to [NewQuery] followed by the
    method calls in the order they were made, so that nothing is
    assumed about how the library reads them. *)
Inductive QueryOp : Type :=
| QDistinct
| QLimit (n : Z)
| QOffset (n : Z)
| QOrder (field : string)
| QStart (c : Cursor)
| QFilterField (field operator : string) (value : any)
| QAncestor (k : Key)
| QKeysOnly.

Record Query : Type := MkQuery { q_kind : string; q_ops : list QueryOp }.

Definition NewQuery (kind : string) : Query :=
  {| q_kind := kind; q_ops := [] |}.

Definition derive (op : QueryOp) (q : Query) : Query :=
  {| q_kind := q_kind q; q_ops := q_ops q ++ [op] |}.

Definition Distinct : Query -> Query := derive QDistinct.
Definition Limit (n : Z) : Query -> Query := derive (QLimit n).
Definition Offset (n : Z) : Query -> Query := derive (QOffset n).
Definition Order (field : string) : Query -> Query := derive (QOrder field).
Definition Start (c : Cursor) : Query -> Query := derive (QStart c).
Definition FilterField (field operator : string) (value : any)
  : Query -> Query := derive (QFilterField field operator value).
Definition Ancestor (k : Key) : Query -> Query := derive (QAncestor k).
Definition KeysOnly : Query -> Query := derive QKeysOnly.

(** What a query says, read off the calls. *)

(** The filter predicates, oldest first. *)
Definition filters (q : Query) : list (string * string * any) :=
  omap (fun op => match op with
                  | QFilterField f o v => Some (f, o, v)
                  | _ => None
                  end) (q_ops q).

(** The start position: the last [Start], if any. *)
Definition start (q : Query) : option Cursor :=
  last (omap (fun op => match op with
                        | QStart c => Some c
                        | _ => None
                        end) (q_ops q)).

(** The limit and the offset: the last [Limit] / [Offset], if any. *)
Definition limit_of (q : Query) : option Z :=
  last (omap (fun op => match op with
                        | QLimit n => Some n
                        | _ => None
                        end) (q_ops q)).

Definition offset_of (q : Query) : option Z :=
  last (omap (fun op => match op with
                        | QOffset n => Some n
                        | _ => None
                        end) (q_ops q)).

(** [q.NewAggregationQuery().WithCount(alias)...] *)
Record AggregationQuery : Type :=
  MkAggregationQuery { aq_query : Query; aq_counts : list string }.

Definition NewAggregationQuery (q : Query) : AggregationQuery :=
  {| aq_query := q; aq_counts := [] |}.

Definition WithCount (alias : string) (aq : AggregationQuery)
  : AggregationQuery :=
  {| aq_query := aq_query aq; aq_counts := aq_counts aq ++ [alias] |}.

End datastore.

Import datastore(Key(..), Kind, ID, Name, Parent, NameKey,
  Cursor(..), cc, pbValue(..), GetIntegerValue, is_Done,
  iterator_Done, ErrNoSuchEntity, status, wrap,
  any(..), type_name, QueryOp(..), q_kind, q_ops,
  AggregationQuery(..), aq_query, aq_counts,
  derive, filters, start, limit_of, offset_of).

(** ** Errors seen by the caller

    An error value is either made by this package ([errors.New],
    [fmt.Errorf]) or handed over by the client library.  Go compares
    errors by identity, so the client library cannot return one of the
    values the package makes; the constructors keep that provenance. *)
Inductive error : Type :=
| errors_New (msg : string)
| fmt_Errorf (msg : string)
| from_backend (e : datastore.error).

(** [errors.Is(err, iterator.Done)] *)
Definition errors_Is_Done (err : error) : bool :=
  match err with
  | from_backend e => is_Done e
  | _ => false
  end.

(** The error classes of the specification. *)
Definition PaginationConflict (e : error) : Prop :=
  e = errors_New "query defined to use cursor" \/
  e = errors_New "query defined to use offset instead of cursor".

Definition AggregationError (e : error) : Prop :=
  e = errors_New "count result not found" \/
  exists t, e = fmt_Errorf ("unexpected count type: " +:+ t).

Definition BackendError (e : error) : Prop :=
  exists b, e = from_backend b.

(** ** The package's types *)

(** [FilterOperator] is a string type. *)
Definition FilterOperator : Type := string.

Definition OpEqual : FilterOperator := "=".
Definition OpGreaterEqual : FilterOperator := ">=".
Definition OpGreater : FilterOperator := ">".
Definition OpLessEqual : FilterOperator := "<=".
Definition OpLess : FilterOperator := "<".
Definition OpIn : FilterOperator := "in".
Definition OpNotIn : FilterOperator := "not in".

Definition FieldKey : string := "__key__".

(** [*datastore.Client]: a handle; [nil] is [None] where it is used. *)
Definition Client : Type := nat.

(** [*datastore.Iterator]: a handle on iteration state kept by the
    client library. *)
Definition Iterator : Type := nat.

Record DB : Type := MkDB {
  client : option Client;
  projectId : string;
  databaseId : string
}.

(** [QueryBuilder[T]]: no field depends on [T].  The methods of the
    builder mutate the receiver and return it; here each one maps the
    builder before the call to the builder after it. *)
Record QueryBuilder : Type := MkQueryBuilder {
  context : Context;
  db : option DB;
  query : datastore.Query;
  kind : string;
  limit : Z;
  usingOffset : bool;
  usingCursor : bool
}.

Definition set_query (q : datastore.Query) (qb : QueryBuilder)
  : QueryBuilder :=
  {| context := context qb; db := db qb; query := q; kind := kind qb;
     limit := limit qb; usingOffset := usingOffset qb;
     usingCursor := usingCursor qb |}.

Definition set_limit (n : Z) (qb : QueryBuilder) : QueryBuilder :=
  {| context := context qb; db := db qb; query := query qb; kind := kind qb;
     limit := n; usingOffset := usingOffset qb;
     usingCursor := usingCursor qb |}.

Definition set_usingOffset (b : bool) (qb : QueryBuilder) : QueryBuilder :=
  {| context := context qb; db := db qb; query := query qb; kind := kind qb;
     limit := limit qb; usingOffset := b; usingCursor := usingCursor qb |}.

Definition set_usingCursor (b : bool) (qb : QueryBuilder) : QueryBuilder :=
  {| context := context qb; db := db qb; query := query qb; kind := kind qb;
     limit := limit qb; usingOffset := usingOffset qb; usingCursor := b |}.

(** [Query[T](db, ctx, kind)] *)
Definition Query (d : option DB) (ctx : Context) (k : string)
  : QueryBuilder :=
  {| context := ctx; db := d; query := datastore.NewQuery k; kind := k;
     limit := 0; usingOffset := false; usingCursor := false |}.

(** ** The world an execution runs in *)

(** [option.ClientOption]: the one option the package passes. *)
Inductive ClientOption : Type :=
| WithCredentialsJSON (json : string).

(** A call into the client library, with the arguments it was given.
    [dst] of [CallGetAll] tells whether a destination slice was passed. *)
Inductive Call : Type :=
| CallNewClientWithDatabase (ctx : Context) (projectId databaseId : string)
    (opts : list ClientOption)
| CallGetAll (c : option Client) (ctx : Context) (q : datastore.Query)
    (dst : bool)
| CallRun (c : option Client) (ctx : Context) (q : datastore.Query)
| CallNext (it : Iterator)
| CallCursor (it : Iterator)
| CallRunAggregationQuery (c : option Client) (ctx : Context)
    (aq : AggregationQuery)
| CallDeleteMulti (c : option Client) (ctx : Context) (keys : list Key)
| CallGetMulti (c : option Client) (ctx : Context) (keys : list Key).

(** An argument of [log.Println]. *)
Inductive log_arg : Type :=
| log_string (s : string)
| log_error (e : error).

(** What the client library answers.  Every call reads and updates the
    backend state; the answer [None] is a run-time panic inside the
    library (a nil client, for one).  [be_Next it dst] answers the
    entity loaded into [dst] and the error; [be_GetAll] answers the
    keys, the entities it appends to the destination, and the error.
    [be_DecodeCursor] and [be_CursorString] are pure. *)
Record Backend (Store T : Type) : Type := MkBackend {
  be_NewClientWithDatabase :
    Context -> string -> string -> list ClientOption -> Store ->
    option (option Client * option datastore.error) * Store;
  be_GetAll :
    option Client -> Context -> datastore.Query -> bool -> Store ->
    option (list Key * list T * option datastore.error) * Store;
  be_Run :
    option Client -> Context -> datastore.Query -> Store ->
    option Iterator * Store;
  be_Next :
    Iterator -> T -> Store -> option (T * option datastore.error) * Store;
  be_Cursor :
    Iterator -> Store -> option (Cursor * option datastore.error) * Store;
  be_RunAggregationQuery :
    option Client -> Context -> AggregationQuery -> Store ->
    option (gmap string any * option datastore.error) * Store;
  be_DeleteMulti :
    option Client -> Context -> list Key -> Store ->
    option (option datastore.error) * Store;
  be_GetMulti :
    option Client -> Context -> list Key -> Store ->
    option ((Key -> option T) * option datastore.error) * Store;
  be_DecodeCursor : string -> Cursor * option datastore.error;
  be_CursorString : Cursor -> string
}.

Arguments be_NewClientWithDatabase {Store T}.
Arguments be_GetAll {Store T}.
Arguments be_Run {Store T}.
Arguments be_Next {Store T}.
Arguments be_Cursor {Store T}.
Arguments be_RunAggregationQuery {Store T}.
Arguments be_DeleteMulti {Store T}.
Arguments be_GetMulti {Store T}.
Arguments be_DecodeCursor {Store T}.
Arguments be_CursorString {Store T}.

Record World (Store : Type) : Type := MkWorld {
  store : Store;
  calls : list Call;
  logs : list (list log_arg)
}.

Arguments MkWorld {Store}.
Arguments store {Store}.
Arguments calls {Store}.
Arguments logs {Store}.

(** How a run of a function ends. *)
Inductive outcome (A : Type) : Type :=
| Returns (a : A)
| Panics
| OutOfFuel.

Arguments Returns {A}.
Arguments Panics {A}.
Arguments OutOfFuel {A}.

Definition M (Store A : Type) : Type :=
  World Store -> outcome A * World Store.

Definition ret {Store A} (a : A) : M Store A :=
  fun w => (Returns a, w).

Definition bind {Store A B} (m : M Store A) (k : A -> M Store B)
  : M Store B :=
  fun w =>
    match m w with
    | (Returns a, w') => k a w'
    | (Panics, w') => (Panics, w')
    | (OutOfFuel, w') => (OutOfFuel, w')
    end.

Definition panic {Store A} : M Store A := fun w => (Panics, w).

Definition out_of_fuel {Store A} : M Store A := fun w => (OutOfFuel, w).

Notation "'let*' p := m 'in' k" := (bind m (fun p => k))
  (at level 10, p pattern, m at level 100, k at level 200, only parsing).

(** A call into the client library: recorded, then answered. *)
Definition call {Store A} (c : Call) (f : Store -> option A * Store)
  : M Store A :=
  fun w =>
    let (r, s) := f (store w) in
    (match r with
     | Some a => Returns a
     | None => Panics
     end,
     {| store := s; calls := calls w ++ [c]; logs := logs w |}).

(** [log.Println(args...)] *)
Definition log_Println {Store} (args : list log_arg) : M Store unit :=
  fun w =>
    (Returns tt,
     {| store := store w; calls := calls w; logs := logs w ++ [args] |}).

(** Dereferencing a pointer: a nil pointer panics. *)
Definition deref {Store A} (p : option A) : M Store A :=
  match p with
  | Some a => ret a
  | None => panic
  end.

(** [make([]T, 0, cap)]: the run time panics ("makeslice: cap out of
    range") when the capacity is negative and when it is more than the
    allocator grants a slice of that element type; [max_cap] is the
    largest capacity it grants. *)
Definition make_slice {Store} (A : Type) (max_cap cap : Z)
  : M Store (slice A) :=
  if ((cap <? 0) || (max_cap <? cap))%Z then panic else ret (Some []).

(** [s[i]] *)
Definition slice_at {Store A} (s : slice A) (i : nat) : M Store A :=
  match s with
  | Some l => deref (l !! i)
  | None => panic
  end.

(** ** The package *)

Section dsx.

Context {Store T : Type}.

(** The zero value of [T]. *)
Variable zero : T.

(** The largest capacity [make] grants a slice of [T]: the bound of the
    allocator divided by the size of a [T] (for a [T] of size zero,
    the largest [int]). *)
Variable max_cap : Z.

Variable B : Backend Store T.

(** *** The client library, as the package calls it *)

Definition NewClientWithDatabase (ctx : Context)
  (projectId databaseId : string) (opts : list ClientOption)
  : M Store (option Client * option error) :=
  let* (c, err) :=
    call (CallNewClientWithDatabase ctx projectId databaseId opts)
      (be_NewClientWithDatabase B ctx projectId databaseId opts) in
  ret (c, from_backend <$> err).

Definition client_GetAll (c : option Client) (ctx : Context)
  (q : datastore.Query) (dst : bool)
  : M Store (list Key * list T * option error) :=
  let* (keys, loaded, err) := call (CallGetAll c ctx q dst)
                            (be_GetAll B c ctx q dst) in
  ret (keys, loaded, from_backend <$> err).

Definition client_Run (c : option Client) (ctx : Context) (q : datastore.Query)
  : M Store Iterator :=
  call (CallRun c ctx q) (be_Run B c ctx q).

Definition it_Next (it : Iterator) (dst : T) : M Store (T * option error) :=
  let* (e, err) := call (CallNext it) (be_Next B it dst) in
  ret (e, from_backend <$> err).

Definition it_Cursor (it : Iterator) : M Store (Cursor * option error) :=
  let* (c, err) := call (CallCursor it) (be_Cursor B it) in
  ret (c, from_backend <$> err).

Definition client_RunAggregationQuery (c : option Client) (ctx : Context)
  (aq : AggregationQuery) : M Store (gmap string any * option error) :=
  let* (results, err) := call (CallRunAggregationQuery c ctx aq)
                       (be_RunAggregationQuery B c ctx aq) in
  ret (results, from_backend <$> err).

Definition client_DeleteMulti (c : option Client) (ctx : Context)
  (keys : list Key) : M Store (option error) :=
  let* err := call (CallDeleteMulti c ctx keys) (be_DeleteMulti B c ctx keys) in
  ret (from_backend <$> err).

(** *** Connecting *)

Definition Connect (ctx : Context)
  (projectId databaseId credentialsJSON : string)
  : M Store (option DB * option error) :=
  let* (client, err) :=
    (if negb (String.eqb credentialsJSON "")
     then NewClientWithDatabase ctx projectId databaseId
            [WithCredentialsJSON credentialsJSON]
     else NewClientWithDatabase ctx projectId databaseId []) in
  ret (Some {| client := client; projectId := projectId;
               databaseId := databaseId |}, err).

(** *** Configuring a builder *)

Definition WithDistinct (qb : QueryBuilder) : QueryBuilder :=
  set_query (datastore.Distinct (query qb)) qb.

Definition WithLimit (qb : QueryBuilder) (n : Z) : QueryBuilder :=
  if (n >? 0)%Z
  then set_limit n (set_query (datastore.Limit n (query qb)) qb)
  else qb.

Definition WithOffset (qb : QueryBuilder) (n : Z) : QueryBuilder :=
  if (n >? 0)%Z
  then set_usingOffset true (set_query (datastore.Offset n (query qb)) qb)
  else qb.

Definition WithOrder (qb : QueryBuilder) (field : string) : QueryBuilder :=
  set_query (datastore.Order field (query qb)) qb.

Definition WithOrderDesc (qb : QueryBuilder) (field : string)
  : QueryBuilder :=
  set_query (datastore.Order ("-" +:+ field) (query qb)) qb.

Definition WithCursor (qb : QueryBuilder) (cursor : string) : QueryBuilder :=
  if negb (String.eqb cursor "")
  then
    let (c, err) := be_DecodeCursor B cursor in
    match err with
    | None =>
        set_usingCursor true (set_query (datastore.Start c (query qb)) qb)
    | Some _ => qb
    end
  else qb.

Definition WithFilter (qb : QueryBuilder) (key : string)
  (operator : FilterOperator) (value : any) : QueryBuilder :=
  if String.eqb key FieldKey
  then
    match value with
    | any_string tmp =>
        set_query
          (datastore.FilterField key operator
             (any_Key (Some (NameKey (kind qb) tmp None))) (query qb)) qb
    | _ => qb
    end
  else set_query (datastore.FilterField key operator value (query qb)) qb.

Definition WithAncestorKey (qb : QueryBuilder) (ancestorKey : option Key)
  : QueryBuilder :=
  match ancestorKey with
  | Some k => set_query (datastore.Ancestor k (query qb)) qb
  | None => qb
  end.

Definition KeysOnly (qb : QueryBuilder) : QueryBuilder :=
  set_query (datastore.KeysOnly (query qb)) qb.

(** *** Executing *)

Definition Total (qb : QueryBuilder) : M Store (Z * option error) :=
  let aggQuery :=
    datastore.WithCount "total" (datastore.NewAggregationQuery (query qb)) in
  let* d := deref (db qb) in
  let* (results, err) :=
    client_RunAggregationQuery (client d) (context qb) aggQuery in
  match err with
  | Some e => ret (0%Z, Some e)
  | None =>
      match results !! "total" with
      | None => ret (0%Z, Some (errors_New "count result not found"))
      | Some count =>
          match count with
          | any_pbValue val => ret (GetIntegerValue val, None)
          | _ =>
              ret (0%Z,
                   Some (fmt_Errorf
                           ("unexpected count type: " +:+ type_name count)))
          end
      end
  end.

(** The [for] loop of [SelectWithCursor].  It ends with [inl result]
    at the [break] and with [inr r] where the function returns [r] from
    inside the loop; each iteration takes one unit of [fuel]. *)
Fixpoint SelectWithCursor_loop (fuel : nat) (qb : QueryBuilder)
  (it : Iterator) (result : slice T)
  : M Store (slice T + (slice T * string * option error)) :=
  match fuel with
  | O => out_of_fuel
  | S fuel' =>
      let* (entity, err) := it_Next it zero in
      match err with
      | Some e =>
          if errors_Is_Done e then ret (inl result)
          else
            let* _ := log_Println [log_string "datastore"; log_string (kind qb);
                              log_string "select-error"; log_error e] in
            ret (inr (None, "", Some e))
      | None => SelectWithCursor_loop fuel' qb it (append result entity)
      end
  end.

Definition SelectWithCursor (fuel : nat) (qb : QueryBuilder)
  : M Store (slice T * string * option error) :=
  if usingOffset qb
  then ret (None, "",
            Some (errors_New "query defined to use offset instead of cursor"))
  else
    let* result := make_slice T max_cap (limit qb) in
    let* d := deref (db qb) in
    let* it := client_Run (client d) (context qb) (query qb) in
    let* r := SelectWithCursor_loop fuel qb it result in
    match r with
    | inr x => ret x
    | inl result =>
        let* (cursor, err) := it_Cursor it in
        match err with
        | Some e => ret (None, "", Some e)
        | None => ret (result, be_CursorString B cursor, None)
        end
    end.

Definition Select (qb : QueryBuilder) : M Store (slice T * option error) :=
  if usingCursor qb
  then ret (None, Some (errors_New "query defined to use cursor"))
  else
    let result : slice T := None in
    let* d := deref (db qb) in
    let* (_, loaded, err) :=
      client_GetAll (client d) (context qb) (query qb) true in
    let result := append_all result loaded in
    match err with
    | Some e =>
        let* _ := log_Println [log_string "datastore"; log_string (kind qb);
                          log_string "select-error"; log_error e] in
        ret (None, Some e)
    | None => ret (result, None)
    end.

Definition Get (qb : QueryBuilder) : M Store (option T * option error) :=
  if usingCursor qb
  then ret (None, Some (errors_New "query defined to use cursor"))
  else
    let* (tmp, err) := Select qb in
    match err with
    | Some e => ret (None, Some e)
    | None =>
        if (0 <? len tmp)%nat
        then let* x := slice_at tmp 0 in ret (Some x, None)
        else ret (None, None)
    end.

(** *** Deleting *)

(** The [for i := 0; i < totalKey; i += 500] loop of [Delete], entered
    at [i]. *)
Fixpoint Delete_loop (fuel : nat) (qb : QueryBuilder) (keys : list Key)
  (totalKey i : Z) : M Store (option error) :=
  match fuel with
  | O => out_of_fuel
  | S fuel' =>
      if (i <? totalKey)%Z
      then
        let end_ := add64 i 500 in
        let end_ := if (end_ >? totalKey)%Z then totalKey else end_ in
        let* batch := deref (slice_range keys i end_) in
        let* d := deref (db qb) in
        let* err := client_DeleteMulti (client d) (context qb) batch in
        match err with
        | Some e =>
            let* _ := log_Println [log_string "datastore"; log_string (kind qb);
                              log_string "delete";
                              log_string "delete-multi";
                              log_string "error"; log_error e] in
            ret (Some e)
        | None => Delete_loop fuel' qb keys totalKey (add64 i 500)
        end
      else ret None
  end.

Definition Delete (fuel : nat) (qb : QueryBuilder)
  : M Store (option error) :=
  let* d := deref (db qb) in
  let* (keys, _, err) :=
    client_GetAll (client d) (context qb) (datastore.KeysOnly (query qb))
      false in
  match err with
  | Some e =>
      let* _ := log_Println [log_string "datastore"; log_string (kind qb);
                        log_string "delete"; log_string "get-all";
                        log_string "error"; log_error e] in
      ret (Some e)
  | None =>
      let totalKey := Z.of_nat (length keys) in
      if (totalKey >? 0)%Z
      then Delete_loop fuel qb keys totalKey 0
      else ret None
  end.

(** *** Fetching by id *)

(** Modelled from the spec: [GetMulti] is named by the package's
    documentation but its body is not among the source files.  The
    specification has it fetch the entities for a sequence of ids in
    one call, keep the order of the ids, put a zero value where no
    entity exists, and hand a backend error back after logging it.
    The backend's answer [found] tells, for each key, the entity stored
    under it if there is one. *)
Definition GetMulti (d : option DB) (ctx : Context) (kind : string)
  (ids : list string) : M Store (slice T * option error) :=
  let keys := (fun id => NameKey kind id None) <$> ids in
  let* d := deref d in
  let* (found, err) := call (CallGetMulti (client d) ctx keys)
                         (be_GetMulti B (client d) ctx keys) in
  match err with
  | Some e =>
      let* _ := log_Println [log_string "datastore"; log_string "get-multi";
                             log_string kind; log_string "error";
                             log_error (from_backend e)] in
      ret (None, Some (from_backend e))
  | None => ret (Some ((fun k => default zero (found k)) <$> keys), None)
  end.

(** *** Runs of the backend

    The theorems on iteration and on chunked deletion speak of what the
    backend answers to a sequence of calls. *)

(** [loads it s es s']: from the backend state [s], as many calls of
    [Next] on [it] as [es] has elements each load an entity without an
    error, the entities are [es] in that order, and the backend is left
    in [s']. *)
Inductive loads (it : Iterator) : Store -> list T -> Store -> Prop :=
| loads_nil s : loads it s [] s
| loads_cons s e s1 es s2 :
    be_Next B it zero s = (Some (e, None), s1) ->
    loads it s1 es s2 ->
    loads it s (e :: es) s2.

(** [deletes c ctx batches s s']: from the backend state [s], the
    calls of [DeleteMulti] on [batches], in that order, all succeed and
    leave the backend in [s']. *)
Inductive deletes (c : option Client) (ctx : Context)
  : list (list Key) -> Store -> Store -> Prop :=
| deletes_nil s : deletes c ctx [] s s
| deletes_cons batch s s1 batches s2 :
    be_DeleteMulti B c ctx batch s = (Some None, s1) ->
    deletes c ctx batches s1 s2 ->
    deletes c ctx (batch :: batches) s s2.

End dsx.

(** ** Chunks of 500 *)

Definition ceil_div (n d : nat) : nat := (n + (d - 1)) / d.

(** The [k]-th chunk of [keys], counting from 0. *)
Definition chunk (keys : list Key) (k : nat) : list Key :=
  take 500 (drop (k * 500) keys).

(** The chunks of [keys], in order. *)
Definition chunks (keys : list Key) : list (list Key) :=
  chunk keys <$> seq 0 (ceil_div (length keys) 500).

(** ** Builders a caller can make

    The fields of a builder are not exported: a caller starts from
    [Query] and goes through the configuration methods. *)
Inductive reachable {Store T} (B : Backend Store T) : QueryBuilder -> Prop :=
| reach_Query d ctx k : reachable B (Query d ctx k)
| reach_WithDistinct qb : reachable B qb -> reachable B (WithDistinct qb)
| reach_WithLimit qb n : reachable B qb -> reachable B (WithLimit qb n)
| reach_WithOffset qb n : reachable B qb -> reachable B (WithOffset qb n)
| reach_WithOrder qb f : reachable B qb -> reachable B (WithOrder qb f)
| reach_WithOrderDesc qb f :
    reachable B qb -> reachable B (WithOrderDesc qb f)
| reach_WithCursor qb c : reachable B qb -> reachable B (WithCursor B qb c)
| reach_WithFilter qb f o v :
    reachable B qb -> reachable B (WithFilter qb f o v)
| reach_WithAncestorKey qb k :
    reachable B qb -> reachable B (WithAncestorKey qb k)
| reach_KeysOnly qb : reachable B qb -> reachable B (KeysOnly qb).

(** ** A backend to run the package on

    A small in-memory store with one iterator, used to evaluate the
    functions on concrete inputs.  Entities are strings.  A query
    matches the entities of its kind that pass its filters, from its
    start position on and up to its limit; orders are not interpreted.
    [locked] lists the numeric ids the store refuses to delete;
    [pending], [consumed] and [budget] are the state of the iterator. *)
Module demo.

Record Store : Type := MkStore {
  ents : list (Key * string);
  locked : list Z;
  pending : list (Key * string);
  consumed : nat;
  budget : option nat
}.

Definition set_ents (l : list (Key * string)) (s : Store) : Store :=
  {| ents := l; locked := locked s; pending := pending s;
     consumed := consumed s; budget := budget s |}.

Definition set_iteration (p : list (Key * string)) (n : nat)
  (b : option nat) (s : Store) : Store :=
  {| ents := ents s; locked := locked s; pending := p;
     consumed := n; budget := b |}.

Fixpoint key_eqb (a b : Key) : bool :=
  String.eqb (Kind a) (Kind b) && Z.eqb (ID a) (ID b)
  && String.eqb (Name a) (Name b)
  && match Parent a, Parent b with
     | None, None => true
     | Some pa, Some pb => key_eqb pa pb
     | _, _ => false
     end.

(** The filters the store understands: equality on the key and
    equality on ["status"], which is the content of an entity. *)
Definition holds (kv : Key * string) (p : string * string * any) : bool :=
  let '(field, operator, value) := p in
  if String.eqb operator "="
  then
    if String.eqb field "__key__"
    then match value with
         | any_Key (Some k) => key_eqb (fst kv) k
         | _ => true
         end
    else if String.eqb field "status"
    then match value with
         | any_string v => String.eqb (snd kv) v
         | _ => true
         end
    else true
  else true.

Definition matching (q : datastore.Query) (s : Store) : list (Key * string) :=
  List.filter
    (fun kv => String.eqb (Kind (fst kv)) (q_kind q)
               && forallb (holds kv) (filters q))
    (ents s).

Definition limited {A} (q : datastore.Query) (l : list A) : list A :=
  match limit_of q with
  | Some n => take (Z.to_nat n) l
  | None => l
  end.

Definition lookup_key (s : Store) (k : Key) : option string :=
  snd <$> List.find (fun kv => key_eqb (fst kv) k) (ents s).

Definition NewClientWithDatabase (ctx : Context)
  (projectId databaseId : string) (opts : list ClientOption) (s : Store)
  : option (option Client * option datastore.error) * Store :=
  if String.eqb projectId ""
  then (Some (None, Some (status 3 "missing project id")), s)
  else (Some (Some 1, None), s).

Definition GetAll (c : option Client) (ctx : Context) (q : datastore.Query)
  (dst : bool) (s : Store)
  : option (list Key * list string * option datastore.error) * Store :=
  match c with
  | None => (None, s)
  | Some _ =>
      let found := limited q (matching q s) in
      (Some (fst <$> found, if dst then snd <$> found else [], None), s)
  end.

(** A cursor counts the entities already read: its content has one
    ["+"] for each. *)
Fixpoint marks (n : nat) : string :=
  match n with
  | O => ""
  | S n' => "+" +:+ marks n'
  end.

Definition Run (c : option Client) (ctx : Context) (q : datastore.Query)
  (s : Store)
  : option Iterator * Store :=
  match c with
  | None => (None, s)
  | Some _ =>
      let n := match start q with
               | Some cu => String.length (cc cu)
               | None => 0
               end in
      (Some 0,
       set_iteration (drop n (matching q s)) n (Z.to_nat <$> limit_of q) s)
  end.

(** An entity whose content is ["corrupt"] cannot be loaded. *)
Definition Next (it : Iterator) (dst : string) (s : Store)
  : option (string * option datastore.error) * Store :=
  match budget s, pending s with
  | Some O, _ | _, [] => (Some (dst, Some iterator_Done), s)
  | b, (_, v) :: rest =>
      if String.eqb v "corrupt"
      then (Some (dst, Some (status 13 "corrupt entity")), s)
      else (Some (v, None),
            set_iteration rest (S (consumed s)) (Nat.pred <$> b) s)
  end.

Definition Cursor_ (it : Iterator) (s : Store)
  : option (Cursor * option datastore.error) * Store :=
  (Some (MkCursor (marks (consumed s)), None), s).

Definition RunAggregationQuery (c : option Client) (ctx : Context)
  (aq : AggregationQuery) (s : Store)
  : option (gmap string any * option datastore.error) * Store :=
  match c with
  | None => (None, s)
  | Some _ =>
      let n := Z.of_nat (length (matching (aq_query aq) s)) in
      (Some (list_to_map
               ((fun a => (a, any_pbValue (Some (pb_IntegerValue n))))
                  <$> aq_counts aq), None), s)
  end.

Definition DeleteMulti (c : option Client) (ctx : Context)
  (keys : list Key) (s : Store) : option (option datastore.error) * Store :=
  match c with
  | None => (None, s)
  | Some _ =>
      if existsb (fun k => existsb (Z.eqb (ID k)) (locked s)) keys
      then (Some (Some (status 9 "entity is locked")), s)
      else
        (Some None,
         set_ents
           (List.filter
              (fun kv => negb (existsb (key_eqb (fst kv)) keys)) (ents s))
           s)
  end.

Definition GetMulti (c : option Client) (ctx : Context) (keys : list Key)
  (s : Store)
  : option ((Key -> option string) * option datastore.error) * Store :=
  match c with
  | None => (None, s)
  | Some _ => (Some (lookup_key s, None), s)
  end.

(** A token is ["c:"] followed by the content of the cursor. *)
Definition DecodeCursor (token : string)
  : Cursor * option datastore.error :=
  if String.prefix "c:" token
  then (MkCursor (String.substring 2 (String.length token - 2) token), None)
  else (MkCursor "", Some (status 3 "invalid cursor")).

Definition CursorString (c : Cursor) : string := "c:" +:+ cc c.

(** A string takes 16 bytes and the allocator grants [2^48]. *)
Definition max_cap : Z := 2 ^ 44.

Definition backend : Backend Store string :=
  {| be_NewClientWithDatabase := NewClientWithDatabase;
     be_GetAll := GetAll;
     be_Run := Run;
     be_Next := Next;
     be_Cursor := Cursor_;
     be_RunAggregationQuery := RunAggregationQuery;
     be_DeleteMulti := DeleteMulti;
     be_GetMulti := GetMulti;
     be_DecodeCursor := DecodeCursor;
     be_CursorString := CursorString |}.

(** A handle on a live client, and one left by a failed [Connect]. *)
Definition live : DB :=
  {| client := Some 1; projectId := "p"; databaseId := "" |}.

Definition dead : DB :=
  {| client := None; projectId := ""; databaseId := "" |}.

Definition holding (l : list (Key * string)) (locked_ids : list Z)
  : Store :=
  {| ents := l; locked := locked_ids; pending := []; consumed := 0;
     budget := None |}.

Definition user (id content : string) : Key * string :=
  (NameKey "User" id None, content).

(** The two users of the specification's scenarios. *)
Definition two_users : Store :=
  holding [user "a" "active"; user "b" "inactive"] [].

(** Three users, the last of which cannot be loaded. *)
Definition three_users : Store :=
  holding [user "a" "active"; user "b" "inactive"; user "c" "corrupt"] [].

(** [n] entities of kind ["Job"] with the numeric ids [0 .. n-1]. *)
Definition jobs (n : nat) (locked_ids : list Z) : Store :=
  holding ((fun i => (MkKey "Job" (Z.of_nat i) "" None, "job")) <$> seq 0 n)
    locked_ids.

Definition world (s : Store) : World Store :=
  {| store := s; calls := []; logs := [] |}.

End demo.

(** ** Accessors

    The methods [ProjectId], [DatabaseId] and [Client] of a handle read
    a field through the receiver: on a nil handle they panic.  The
    methods [DB] and [Kind] of a builder read a field of the builder. *)

Definition DB_ProjectId (h : option DB) : outcome string :=
  match h with
  | Some d => Returns (projectId d)
  | None => Panics
  end.

Definition DB_DatabaseId (h : option DB) : outcome string :=
  match h with
  | Some d => Returns (databaseId d)
  | None => Panics
  end.

Definition DB_Client (h : option DB) : outcome (option Client) :=
  match h with
  | Some d => Returns (client d)
  | None => Panics
  end.

Definition QueryBuilder_DB (qb : QueryBuilder) : option DB := db qb.

Definition QueryBuilder_Kind (qb : QueryBuilder) : string := kind qb.

(** ** Chains of configuration calls

    A caller configures a builder by a sequence of method calls; a
    [Config] is one such call with its arguments, and [configure] makes
    the calls of a sequence one after the other. *)
Inductive Config : Type :=
| CallWithDistinct
| CallWithLimit (n : Z)
| CallWithOffset (n : Z)
| CallWithOrder (field : string)
| CallWithOrderDesc (field : string)
| CallWithCursor (cursor : string)
| CallWithFilter (key : string) (operator : FilterOperator) (value : any)
| CallWithAncestorKey (ancestorKey : option Key)
| CallKeysOnly.

Definition configure1 {Store T} (B : Backend Store T) (qb : QueryBuilder)
  (c : Config) : QueryBuilder :=
  match c with
  | CallWithDistinct => WithDistinct qb
  | CallWithLimit n => WithLimit qb n
  | CallWithOffset n => WithOffset qb n
  | CallWithOrder field => WithOrder qb field
  | CallWithOrderDesc field => WithOrderDesc qb field
  | CallWithCursor cursor => WithCursor B qb cursor
  | CallWithFilter key operator value => WithFilter qb key operator value
  | CallWithAncestorKey ancestorKey => WithAncestorKey qb ancestorKey
  | CallKeysOnly => KeysOnly qb
  end.

Definition configure {Store T} (B : Backend Store T) (qb : QueryBuilder)
  (cs : list Config) : QueryBuilder :=
  foldl (configure1 B) qb cs.

(** The sort orders of a query, oldest first, as given to [Order]. *)
Definition orders (q : datastore.Query) : list string :=
  omap (fun op => match op with
                  | QOrder f => Some f
                  | _ => None
                  end) (q_ops q).

(** The flags and the limit of a builder say what its query says: the
    builder is in offset mode exactly if the query has an offset, in
    cursor mode exactly if the query has a start position, its limit is
    the limit of the query (0 if there is none), and limits and offsets
    given to the query are positive. *)
Definition flags_agree (qb : QueryBuilder) : Prop :=
  (usingOffset qb = true <-> is_Some (offset_of (query qb))) /\
  (usingCursor qb = true <-> is_Some (start (query qb))) /\
  limit qb = default 0%Z (limit_of (query qb)) /\
  (forall n, limit_of (query qb) = Some n -> (0 < n)%Z) /\
  (forall n, offset_of (query qb) = Some n -> (0 < n)%Z).

(** The predicate a configuration call adds to a builder of kind [k],
    if it adds one. *)
Definition added_filter (k : string) (c : Config)
  : option (string * string * any) :=
  match c with
  | CallWithFilter key operator value =>
      if decide (key = "__key__")
      then match value with
           | any_string id => Some (key, operator,
                                    any_Key (Some (NameKey k id None)))
           | _ => None
           end
      else Some (key, operator, value)
  | _ => None
  end.

(** The sort order a configuration call adds, if it adds one. *)
Definition added_order (c : Config) : option string :=
  match c with
  | CallWithOrder field => Some field
  | CallWithOrderDesc field => Some ("-" +:+ field)
  | _ => None
  end.

(** ** Writing

    [Upsert] and [UpsertMulti] reach the client library through [Put]
    and [PutMulti].  Their calls are kept in a journal next to the
    backend state, and the library's answers are the fields of a record
    of their own, so that the world of the reading functions stays as
    it is.  An entity is handed over by pointer, which may be nil. *)
Inductive WriteCall (T : Type) : Type :=
| CallPut (c : option Client) (ctx : Context) (key : Key) (src : option T)
| CallPutMulti (c : option Client) (ctx : Context) (keys : list Key)
    (src : list (option T)).

Arguments CallPut {T}.
Arguments CallPutMulti {T}.

Record Writer (Store T : Type) : Type := MkWriter {
  be_Put :
    option Client -> Context -> Key -> option T -> Store ->
    option (option Key * option datastore.error) * Store;
  be_PutMulti :
    option Client -> Context -> list Key -> list (option T) -> Store ->
    option (list Key * option datastore.error) * Store
}.

Arguments be_Put {Store T}.
Arguments be_PutMulti {Store T}.

Record Journal (Store T : Type) : Type := MkJournal {
  backend_state : Store;
  written : list (WriteCall T)
}.

Arguments MkJournal {Store T}.
Arguments backend_state {Store T}.
Arguments written {Store T}.

(** A writing call into the client library: recorded in the journal,
    then answered. *)
Definition write_call {Store T A} (c : WriteCall T)
  (f : Store -> option A * Store) : M (Journal Store T) A :=
  fun w =>
    let (r, s) := f (backend_state (store w)) in
    (match r with
     | Some a => Returns a
     | None => Panics
     end,
     {| store := {| backend_state := s;
                    written := written (store w) ++ [c] |};
        calls := calls w; logs := logs w |}).

Section writing.

Context {Store T : Type}.

Variable W : Writer Store T.

Definition client_Put (c : option Client) (ctx : Context) (key : Key)
  (src : option T) : M (Journal Store T) (option Key * option error) :=
  let* (k, err) := write_call (CallPut c ctx key src)
                     (be_Put W c ctx key src) in
  ret (k, from_backend <$> err).

Definition client_PutMulti (c : option Client) (ctx : Context)
  (keys : list Key) (src : list (option T))
  : M (Journal Store T) (list Key * option error) :=
  let* (ks, err) := write_call (CallPutMulti c ctx keys src)
                      (be_PutMulti W c ctx keys src) in
  ret (ks, from_backend <$> err).

Definition Upsert (qb : QueryBuilder) (id : string) (data : option T)
  : M (Journal Store T) (option error) :=
  let key := NameKey (kind qb) id None in
  let* d := deref (db qb) in
  let* (_, err) := client_Put (client d) (context qb) key data in
  match err with
  | Some e =>
      let* _ := log_Println [log_string "datastore"; log_string (kind qb);
                             log_string "upsert-error"; log_error e] in
      ret (Some e)
  | None => ret None
  end.

(** The body of the [range] loop of [UpsertMulti]: one key and one
    entity are appended. *)
Definition UpsertMulti_step (qb : QueryBuilder)
  (acc : list Key * list (option T)) (entry : string * option T)
  : list Key * list (option T) :=
  let (keys, entities) := acc in
  let (id, data) := entry in
  (keys ++ [NameKey (kind qb) id None], entities ++ [data]).

(** [items] is the map the caller passes.  Go visits the entries of a
    map in an order of its choosing: [visited] is the sequence in which
    the [range] loop meets them.  Both slices are made empty, with room
    for [len(items)] elements. *)
Definition UpsertMulti (qb : QueryBuilder) (items : gmap string (option T))
  (visited : list (string * option T))
  : M (Journal Store T) (option error) :=
  if Nat.eqb (size items) 0
  then ret None
  else
    let (keys, entities) := foldl (UpsertMulti_step qb) ([], []) visited in
    let* d := deref (db qb) in
    let* (_, err) := client_PutMulti (client d) (context qb) keys entities in
    match err with
    | Some e =>
        let* _ := log_Println [log_string "datastore"; log_string (kind qb);
                               log_string "upsert-multi-error";
                               log_error e] in
        ret (Some e)
    | None => ret None
    end.

End writing.

(** Writing on the in-memory backend: [Put] replaces the entity stored
    under the key or adds it at the end; a nil entity is refused, and
    so is a batch of more than 500. *)
Module demo_writer.

Definition put (key : Key) (v : string) (l : list (Key * string))
  : list (Key * string) :=
  if existsb (fun kv => demo.key_eqb (fst kv) key) l
  then (fun kv => if demo.key_eqb (fst kv) key then (key, v) else kv) <$> l
  else l ++ [(key, v)].

Definition Put (c : option Client) (ctx : Context) (key : Key)
  (src : option string) (s : demo.Store)
  : option (option Key * option datastore.error) * demo.Store :=
  match c with
  | None => (None, s)
  | Some _ =>
      match src with
      | None => (Some (None, Some (status 3 "invalid entity type")), s)
      | Some v => (Some (Some key, None),
                   demo.set_ents (put key v (demo.ents s)) s)
      end
  end.

Fixpoint put_all (keys : list Key) (src : list (option string))
  (l : list (Key * string)) : option (list (Key * string)) :=
  match keys, src with
  | [], [] => Some l
  | key :: keys', Some v :: src' => put_all keys' src' (put key v l)
  | _, _ => None
  end.

Definition PutMulti (c : option Client) (ctx : Context) (keys : list Key)
  (src : list (option string)) (s : demo.Store)
  : option (list Key * option datastore.error) * demo.Store :=
  match c with
  | None => (None, s)
  | Some _ =>
      if 500 <? length keys
      then (Some ([], Some (status 3 "too many entities in one call")), s)
      else
        match put_all keys src (demo.ents s) with
        | Some l => (Some (keys, None), demo.set_ents l s)
        | None => (Some ([], Some (status 3 "invalid entity type")), s)
        end
  end.

Definition writer : Writer demo.Store string :=
  {| be_Put := Put; be_PutMulti := PutMulti |}.

Definition world (s : demo.Store) : World (Journal demo.Store string) :=
  {| store := {| backend_state := s; written := [] |};
     calls := []; logs := [] |}.

End demo_writer.

(** * Properties *)

Section properties.

Context {Store T : Type}.
Variable zero : T.
Variable max_cap : Z.
Variable B : Backend Store T.

(** ** Errors by provenance *)

Lemma backend_not_pagination (e : error) :
  BackendError e -> ~ PaginationConflict e.
Proof. intros [b ->] [H | H]; discriminate H. Qed.

Lemma aggregation_not_backend (e : error) :
  AggregationError e -> ~ BackendError e.
Proof. intros [-> | [t ->]] [b H]; discriminate H. Qed.

(** ** What the wrappers of the client library return *)

Lemma GetAll_error c ctx q dst (w w' : World Store) keys loaded e :
  client_GetAll B c ctx q dst w = (Returns (keys, loaded, Some e), w') ->
  BackendError e.
Proof.
  unfold client_GetAll, bind, ret.
  destruct (call _ _ w) as [[[[ks ld] [b|]]| |] w1]; intros H; simplify_eq.
  by exists b.
Qed.

Lemma Next_error it dst (w w' : World Store) x e :
  it_Next B it dst w = (Returns (x, Some e), w') -> BackendError e.
Proof.
  unfold it_Next, bind, ret.
  destruct (call _ _ w) as [[[y [b|]]| |] w1]; intros H; simplify_eq.
  by exists b.
Qed.

Lemma Cursor_error it (w w' : World Store) x e :
  it_Cursor B it w = (Returns (x, Some e), w') -> BackendError e.
Proof.
  unfold it_Cursor, bind, ret.
  destruct (call _ _ w) as [[[y [b|]]| |] w1]; intros H; simplify_eq.
  by exists b.
Qed.

Lemma loop_error fuel qb it result (w w' : World Store) r c e :
  SelectWithCursor_loop zero B fuel qb it result w
  = (Returns (inr (r, c, Some e)), w') ->
  BackendError e.
Proof.
  revert result w. induction fuel as [|fuel IH]; intros result w; simpl.
  - discriminate.
  - unfold bind at 1.
    destruct (it_Next B it zero w) as [[[x [e1|]]| |] w1] eqn:HN;
      try discriminate.
    + destruct (errors_Is_Done e1); [discriminate|].
      unfold bind, log_Println, ret. intros H; simplify_eq.
      eapply Next_error, HN.
    + apply IH.
Qed.

Lemma Select_error qb (w w' : World Store) r e :
  usingCursor qb = false ->
  Select B qb w = (Returns (r, Some e), w') -> BackendError e.
Proof.
  intros Hc. unfold Select. rewrite Hc. unfold bind at 1.
  destruct (db qb) as [d|]; simpl; [|discriminate].
  unfold bind at 1.
  destruct (client_GetAll B _ _ _ _ w) as [[[[ks ld] [e1|]]| |] w1] eqn:HG;
    try discriminate.
  unfold bind, log_Println, ret. intros H; simplify_eq.
  eapply GetAll_error, HG.
Qed.

Lemma SelectWithCursor_error fuel qb (w w' : World Store) r c e :
  usingOffset qb = false ->
  SelectWithCursor zero max_cap B fuel qb w = (Returns (r, c, Some e), w') ->
  BackendError e.
Proof.
  intros Ho. unfold SelectWithCursor. rewrite Ho. unfold bind at 1.
  unfold make_slice.
  destruct ((limit qb <? 0) || (max_cap <? limit qb))%Z; [discriminate|].
  unfold ret at 1. unfold bind at 1.
  destruct (db qb) as [d|]; simpl; [|discriminate].
  unfold bind at 1.
  destruct (client_Run B _ _ _ w) as [[it| |] w1]; try discriminate.
  unfold bind at 1.
  destruct (SelectWithCursor_loop _ _ _ _ _ _ w1)
    as [[[res|[[r1 c1] e1]]| |] w2] eqn:HL; try discriminate.
  - unfold bind at 1.
    destruct (it_Cursor B it w2) as [[[cu [e2|]]| |] w3] eqn:HC;
      try discriminate; unfold ret; intros H; simplify_eq.
    eapply Cursor_error, HC.
  - unfold ret. intros H; simplify_eq. eapply loop_error, HL.
Qed.

(** C1. Pagination modes exclude each other at execution: [Select]
    returns a PaginationConflict error exactly when [usingCursor] is
    set, [SelectWithCursor] returns one exactly when [usingOffset] is
    set, and a rejected call leaves the world as it found it: no call
    reached the client library. *)
Theorem pagination_conflict_at_execution (fuel : nat) (qb : QueryBuilder)
  (w : World Store) :
  ((exists r e w', Select B qb w = (Returns (r, Some e), w') /\
                   PaginationConflict e)
   <-> usingCursor qb = true) /\
  ((exists r c e w',
       SelectWithCursor zero max_cap B fuel qb w
       = (Returns (r, c, Some e), w') /\
       PaginationConflict e)
   <-> usingOffset qb = true) /\
  (usingCursor qb = true ->
   Select B qb w
   = (Returns (None, Some (errors_New "query defined to use cursor")), w)) /\
  (usingOffset qb = true ->
   SelectWithCursor zero max_cap B fuel qb w
   = (Returns (None, "",
               Some (errors_New
                       "query defined to use offset instead of cursor")),
      w)).
Proof.
  assert (HS : usingCursor qb = true ->
               Select B qb w
               = (Returns (None,
                           Some (errors_New "query defined to use cursor")),
                  w)).
  { intros H. unfold Select. by rewrite H. }
  assert (HC : usingOffset qb = true ->
               SelectWithCursor zero max_cap B fuel qb w
               = (Returns (None, "",
                           Some (errors_New
                             "query defined to use offset instead of cursor")),
                  w)).
  { intros H. unfold SelectWithCursor. by rewrite H. }
  repeat split; try assumption.
  - intros (r & e & w' & Hrun & Hpc).
    destruct (usingCursor qb) eqn:Hc; [done|].
    destruct (backend_not_pagination e); [|done].
    eapply Select_error; eauto.
  - intros H. eexists _, _, _. split; [by apply HS|]. by left.
  - intros (r & c & e & w' & Hrun & Hpc).
    destruct (usingOffset qb) eqn:Ho; [done|].
    destruct (backend_not_pagination e); [|done].
    eapply SelectWithCursor_error; eauto.
  - intros H. eexists _, _, _, _. split; [by apply HC|]. by right.
Qed.

(** ** Configuration *)

Lemma filters_derive (op : QueryOp) (q : datastore.Query) :
  filters (derive op q)
  = filters q ++ match op with
                 | QFilterField f o v => [(f, o, v)]
                 | _ => []
                 end.
Proof.
  unfold filters, derive; simpl. rewrite omap_app. by destruct op.
Qed.

Lemma start_derive (op : QueryOp) (q : datastore.Query) :
  start (derive op q) = match op with
                        | QStart c => Some c
                        | _ => start q
                        end.
Proof.
  unfold start, derive; simpl. rewrite omap_app.
  destruct op; simpl; rewrite ?app_nil_r, ?last_snoc; done.
Qed.

Lemma limit_of_derive (op : QueryOp) (q : datastore.Query) :
  limit_of (derive op q) = match op with
                           | QLimit n => Some n
                           | _ => limit_of q
                           end.
Proof.
  unfold limit_of, derive; simpl. rewrite omap_app.
  destruct op; simpl; rewrite ?app_nil_r, ?last_snoc; done.
Qed.

Lemma offset_of_derive (op : QueryOp) (q : datastore.Query) :
  offset_of (derive op q) = match op with
                            | QOffset n => Some n
                            | _ => offset_of q
                            end.
Proof.
  unfold offset_of, derive; simpl. rewrite omap_app.
  destruct op; simpl; rewrite ?app_nil_r, ?last_snoc; done.
Qed.

Lemma set_query_same (qb : QueryBuilder) : set_query (query qb) qb = qb.
Proof. by destruct qb. Qed.

(** C3. [WithFilter] on the identity pseudo-field with a string value
    adds a predicate whose value is the key made of the builder's kind
    and that string; on the identity pseudo-field with a value of any
    other type it changes nothing; on any other field it adds the
    predicate as given.  In every case only the query of the builder
    changes. *)
Theorem WithFilter_predicate (qb : QueryBuilder) (field : string)
  (op : FilterOperator) (value : any) :
  let qb' := WithFilter qb field op value in
  qb' = set_query (query qb') qb /\
  if decide (field = "__key__")
  then
    match value with
    | any_string s =>
        let key := {| Kind := kind qb; ID := 0; Name := s; Parent := None |} in
        query qb'
        = datastore.FilterField "__key__" op (any_Key (Some key)) (query qb) /\
        filters (query qb')
        = filters (query qb) ++ [("__key__", op, any_Key (Some key))]
    | _ => qb' = qb
    end
  else
    query qb' = datastore.FilterField field op value (query qb) /\
    filters (query qb') = filters (query qb) ++ [(field, op, value)].
Proof.
  unfold WithFilter, FieldKey. simpl.
  destruct (String.eqb_spec field "__key__") as [-> | Hne].
  - rewrite decide_True by done.
    destruct value; simpl; rewrite ?set_query_same; try done.
    split; [done|]. split; [done|].
    unfold datastore.FilterField. by rewrite filters_derive.
  - rewrite decide_False by done. simpl.
    split; [done|]. split; [done|].
    unfold datastore.FilterField. by rewrite filters_derive.
Qed.

(** C4. [WithCursor] makes the token the start position of the query
    and sets [usingCursor] if the token is not empty and decodes; if
    not, the builder is left as it was, so that a flag that was off
    stays off and a position that was unset stays unset.  The method
    returns the builder and nothing else: there is no error to see. *)
Theorem WithCursor_applies_iff_decodes (qb : QueryBuilder) (token : string) :
  let qb' := WithCursor B qb token in
  let c := fst (be_DecodeCursor B token) in
  let valid := token <> "" /\ snd (be_DecodeCursor B token) = None in
  (valid ->
   qb' = set_usingCursor true (set_query (datastore.Start c (query qb)) qb) /\
   start (query qb') = Some c /\ usingCursor qb' = true) /\
  (~ valid -> qb' = qb) /\
  (usingCursor qb = false -> (usingCursor qb' = true <-> valid)) /\
  (start (query qb) = None -> (is_Some (start (query qb')) <-> valid)).
Proof.
  unfold WithCursor; simpl.
  destruct (String.eqb_spec token "") as [-> | Hne]; simpl.
  - split; [intros [? _]; done|]. split; [done|]. split.
    + intros Hf. split; [congruence | intros [? _]; done].
    + intros Hs. split; [intros [x Hx]; congruence | intros [? _]; done].
  - destruct (be_DecodeCursor B token) as [c [e|]]; simpl.
    + split; [intros [_ ?]; done|]. split; [done|]. split.
      * intros Hf. split; [congruence | intros [_ ?]; done].
      * intros Hs. split; [intros [x Hx]; congruence | intros [_ ?]; done].
    + unfold datastore.Start. rewrite start_derive.
      split; [done|]. split; [intros []; done|].
      split; intros _; split; eauto.
Qed.

(** C5. [WithLimit] sets the limit for a positive argument and leaves
    the builder alone otherwise; [WithOffset] sets the offset and
    [usingOffset] for a positive argument and leaves the builder alone
    otherwise; [WithOffset] neither reads nor writes [usingCursor], so
    on a builder in cursor mode it yields one with both flags set. *)
Theorem WithLimit_WithOffset_positive_only (qb : QueryBuilder) (n : Z) :
  ((0 < n)%Z ->
   WithLimit qb n = set_limit n (set_query (datastore.Limit n (query qb)) qb) /\
   limit (WithLimit qb n) = n /\
   limit_of (query (WithLimit qb n)) = Some n) /\
  ((n <= 0)%Z -> WithLimit qb n = qb) /\
  ((0 < n)%Z ->
   WithOffset qb n
   = set_usingOffset true (set_query (datastore.Offset n (query qb)) qb) /\
   usingOffset (WithOffset qb n) = true /\
   offset_of (query (WithOffset qb n)) = Some n) /\
  ((n <= 0)%Z -> WithOffset qb n = qb) /\
  usingCursor (WithOffset qb n) = usingCursor qb /\
  (forall b : bool,
     WithOffset (set_usingCursor b qb) n
     = set_usingCursor b (WithOffset qb n)) /\
  ((0 < n)%Z -> usingCursor qb = true ->
   usingOffset (WithOffset qb n) = true /\
   usingCursor (WithOffset qb n) = true).
Proof.
  unfold WithLimit, WithOffset.
  destruct (Z.gtb_spec n 0) as [Hpos | Hneg].
  - unfold datastore.Limit, datastore.Offset. simpl.
    rewrite limit_of_derive, offset_of_derive.
    repeat split; try done; lia.
  - repeat split; try done; lia.
Qed.

(** ** Connecting *)

(** C10. [Connect] hands back a handle whatever the client library
    answers: the handle carries the project and database identifiers it
    was given and the client the library returned, next to the
    library's error.  When the library fails with a nil client the
    caller gets both a handle (with a nil client) and the error. *)
Theorem Connect_returns_handle (ctx : Context)
  (project database credentialsJSON : string) (w : World Store)
  (c : option Client) (err : option datastore.error) (s1 : Store) :
  let opts := if decide (credentialsJSON = "")
              then []
              else [WithCredentialsJSON credentialsJSON] in
  be_NewClientWithDatabase B ctx project database opts (store w)
  = (Some (c, err), s1) ->
  exists (h : DB) (w' : World Store),
    Connect B ctx project database credentialsJSON w
    = (Returns (Some h, from_backend <$> err), w') /\
    h = {| client := c; projectId := project; databaseId := database |} /\
    w' = {| store := s1;
            calls := calls w
                     ++ [CallNewClientWithDatabase ctx project database opts];
            logs := logs w |}.
Proof.
  simpl. unfold Connect, NewClientWithDatabase, bind, call, ret.
  destruct (decide (credentialsJSON = "")) as [-> | Hne]; simpl.
  - intros ->. by eexists _, _.
  - destruct (String.eqb_spec credentialsJSON "") as [Heq | _]; [done|].
    simpl. intros ->. by eexists _, _.
Qed.

(** ** Counting *)

(** C7. When the aggregation query comes back without an error,
    [Total] answers the integer carried by the value stored under the
    count key if that value has the protobuf value type, and answers
    zero with an AggregationError if the key is missing or its value has
    another type; an AggregationError is never an error of the backend.
    An error of the backend is handed back as it is, with zero. *)
Theorem Total_count_or_aggregation_error (qb : QueryBuilder)
  (w : World Store) (d : DB) (results : gmap string any)
  (err : option datastore.error) (s1 : Store) :
  let aq :=
    datastore.WithCount "total" (datastore.NewAggregationQuery (query qb)) in
  db qb = Some d ->
  be_RunAggregationQuery B (client d) (context qb) aq (store w)
  = (Some (results, err), s1) ->
  let w' := {| store := s1;
               calls := calls w
                        ++ [CallRunAggregationQuery (client d) (context qb)
                              aq];
               logs := logs w |} in
  match err with
  | Some b => Total B qb w = (Returns (0%Z, Some (from_backend b)), w')
  | None =>
      match results !! "total" with
      | Some (any_pbValue (Some (pb_IntegerValue n))) =>
          Total B qb w = (Returns (n, None), w')
      | Some (any_pbValue v) =>
          Total B qb w = (Returns (GetIntegerValue v, None), w')
      | _ =>
          exists e, Total B qb w = (Returns (0%Z, Some e), w') /\
                    AggregationError e /\ ~ BackendError e
      end
  end.
Proof.
  simpl. intros Hdb Hrep.
  unfold Total, client_RunAggregationQuery, bind, call, ret. rewrite Hdb. simpl.
  rewrite Hrep. destruct err as [b|]; simpl; [done|].
  assert (Hnf : AggregationError (errors_New "count result not found"))
    by (by left).
  assert (Hty : forall t,
             AggregationError (fmt_Errorf ("unexpected count type: " +:+ t)))
    by (intros t; right; by exists t).
  destruct (results !! "total") as [[| | | | | |[[]|]]|]; simpl; try done;
    eexists; (split; [reflexivity|]);
    (split; [first [apply Hnf | apply Hty]|]);
    apply aggregation_not_backend; first [apply Hnf | apply Hty].
Qed.

(** ** The first match *)

(** C6. On a builder that is not in cursor mode [Get] runs [Select]
    and answers its first entity, or nothing and no error if [Select]
    found none; an error of [Select] is handed on.  On a builder in
    cursor mode [Get] fails with the PaginationConflict error of
    [Select], without a call to the client library. *)
Theorem Get_first_of_Select (qb : QueryBuilder) (w : World Store) :
  if usingCursor qb
  then
    exists e, PaginationConflict e /\
              Get B qb w = (Returns (None, Some e), w) /\
              Select B qb w = (Returns (None, Some e), w)
  else
    match Select B qb w with
    | (Returns (Some (first :: _), None), w') =>
        Get B qb w = (Returns (Some first, None), w')
    | (Returns (_, None), w') => Get B qb w = (Returns (None, None), w')
    | (Returns (_, Some e), w') => Get B qb w = (Returns (None, Some e), w')
    | (Panics, w') => Get B qb w = (Panics, w')
    | (OutOfFuel, w') => Get B qb w = (OutOfFuel, w')
    end.
Proof.
  destruct (usingCursor qb) eqn:Hc.
  - exists (errors_New "query defined to use cursor").
    split; [by left|]. unfold Get, Select. by rewrite Hc.
  - destruct (Select B qb w) as [[[[[|x l]|] [e|]]| |] w'] eqn:HS;
      unfold Get; rewrite Hc; unfold bind at 1; rewrite HS; reflexivity.
Qed.

(** ** Iterating with a cursor *)

Lemma append_all_Some {A} (l xs : list A) :
  append_all (Some l) xs = Some (l ++ xs).
Proof.
  revert l. induction xs as [|x xs IH]; intros l; simpl.
  - by rewrite app_nil_r.
  - unfold append_all in *. simpl. rewrite IH. by rewrite <- app_assoc.
Qed.

Lemma replicate_snoc_cons {A} (n : nat) (x : A) (l : list A) :
  (l ++ [x]) ++ replicate n x = l ++ replicate (S n) x.
Proof. by rewrite <- app_assoc. Qed.

(** The loop on a backend that loads [es] and then answers [stop]. *)
Lemma SelectWithCursor_loop_run (qb : QueryBuilder) (it : Iterator)
  (s1 s2 : Store) (es : list T) :
  loads zero B it s1 es s2 ->
  forall (fuel : nat) (result : list T) (cs : list Call)
         (lg : list (list log_arg)) (x : T) (stop : datastore.error)
         (s3 : Store),
    be_Next B it zero s2 = (Some (x, Some stop), s3) ->
    length es < fuel ->
    SelectWithCursor_loop zero B fuel qb it (Some result)
      {| store := s1; calls := cs; logs := lg |}
    = if is_Done stop
      then (Returns (inl (Some (result ++ es))),
            {| store := s3;
               calls := cs ++ replicate (S (length es)) (CallNext it);
               logs := lg |})
      else (Returns (inr (None, "", Some (from_backend stop))),
            {| store := s3;
               calls := cs ++ replicate (S (length es)) (CallNext it);
               logs := lg ++ [[log_string "datastore"; log_string (kind qb);
                               log_string "select-error";
                               log_error (from_backend stop)]] |}).
Proof.
  induction 1 as [s | s e s1 es s2 Hnext Hloads IH];
    intros fuel result cs lg x stop s3 Hstop Hfuel;
    (destruct fuel as [|fuel]; [simpl in Hfuel; lia|]); simpl.
  - unfold it_Next, call, log_Println, bind, ret; simpl. rewrite Hstop; simpl.
    rewrite app_nil_r. by destruct (is_Done stop).
  - unfold bind at 1. unfold it_Next, call, bind, ret; simpl.
    rewrite Hnext; simpl.
    rewrite (IH fuel (result ++ [e]) _ lg x stop s3 Hstop)
      by (simpl in Hfuel; lia).
    rewrite replicate_snoc_cons, <- app_assoc. done.
Qed.

(** C8. The claim does not hold on every builder that is not in
    offset mode.  [SelectWithCursor] makes its result slice with the
    limit of the builder as capacity before it reaches the backend;
    when the limit is more than the run time grants as a capacity, the
    call panics there: nothing is iterated, no error is returned, and
    the world is as it was.  That is so whatever the backend holds. *)
Theorem SelectWithCursor_panics_beyond_capacity (fuel : nat)
  (qb : QueryBuilder) (w : World Store) :
  usingOffset qb = false ->
  (max_cap < limit qb)%Z ->
  SelectWithCursor zero max_cap B fuel qb w = (Panics, w) /\
  (forall o, SelectWithCursor zero max_cap B fuel qb w <> (Returns o, w)).
Proof.
  intros Ho Hbig.
  assert (Hrun : SelectWithCursor zero max_cap B fuel qb w = (Panics, w)).
  { unfold SelectWithCursor. rewrite Ho. unfold make_slice.
    destruct (Z.ltb_spec max_cap (limit qb)) as [_ | Hle]; [|lia].
    by rewrite orb_true_r. }
  split; [exact Hrun|]. intros o. rewrite Hrun. discriminate.
Qed.

(** X18. On a builder that is not in offset mode and whose limit the
    run time grants as a capacity, [SelectWithCursor] takes the
    entities one [Next] at a time; when [Next] reports the end it asks
    the same iterator for the cursor and returns the entities collected
    with the cursor's string; when [Next] fails otherwise it returns
    the error at once with a nil slice and an empty cursor, and the
    cursor is not asked for. *)
Theorem SelectWithCursor_collects_or_aborts (fuel : nat)
  (qb : QueryBuilder) (w : World Store) (d : DB) (it : Iterator)
  (es : list T) (x : T) (stop : datastore.error) (s1 s2 s3 : Store) :
  usingOffset qb = false ->
  (0 <= limit qb <= max_cap)%Z ->
  db qb = Some d ->
  be_Run B (client d) (context qb) (query qb) (store w) = (Some it, s1) ->
  loads zero B it s1 es s2 ->
  be_Next B it zero s2 = (Some (x, Some stop), s3) ->
  length es < fuel ->
  let trace := calls w ++ [CallRun (client d) (context qb) (query qb)]
               ++ replicate (S (length es)) (CallNext it) in
  if is_Done stop
  then
    match be_Cursor B it s3 with
    | (Some (c, None), s4) =>
        SelectWithCursor zero max_cap B fuel qb w
        = (Returns (Some es, be_CursorString B c, None),
           {| store := s4; calls := trace ++ [CallCursor it];
              logs := logs w |})
    | (Some (c, Some e), s4) =>
        SelectWithCursor zero max_cap B fuel qb w
        = (Returns (None, "", Some (from_backend e)),
           {| store := s4; calls := trace ++ [CallCursor it];
              logs := logs w |})
    | (None, s4) =>
        SelectWithCursor zero max_cap B fuel qb w
        = (Panics,
           {| store := s4; calls := trace ++ [CallCursor it];
              logs := logs w |})
    end
  else
    SelectWithCursor zero max_cap B fuel qb w
    = (Returns (None, "", Some (from_backend stop)),
       {| store := s3; calls := trace;
          logs := logs w
                  ++ [[log_string "datastore"; log_string (kind qb);
                       log_string "select-error";
                       log_error (from_backend stop)]] |}).
Proof.
  intros Ho Hlim Hdb Hrun Hloads Hstop Hfuel trace.
  pose proof (SelectWithCursor_loop_run qb it s1 s2 es Hloads fuel []
                (calls w ++ [CallRun (client d) (context qb) (query qb)])
                (logs w) x stop s3 Hstop Hfuel) as Hloop.
  assert (Hstart :
    SelectWithCursor zero max_cap B fuel qb w
    = bind (SelectWithCursor_loop zero B fuel qb it (Some []))
        (fun r =>
           match r with
           | inr x => ret x
           | inl result =>
               let* (cursor, err) := it_Cursor B it in
               match err with
               | Some e => ret (None, "", Some e)
               | None => ret (result, be_CursorString B cursor, None)
               end
           end)
        {| store := s1;
           calls := calls w ++ [CallRun (client d) (context qb) (query qb)];
           logs := logs w |}).
  { unfold SelectWithCursor. rewrite Ho. unfold make_slice.
    destruct (Z.ltb_spec (limit qb) 0) as [Hneg | _]; [lia|].
    destruct (Z.ltb_spec max_cap (limit qb)) as [Hbig | _]; [lia|].
    cbn [orb].
    rewrite Hdb. unfold client_Run, call, deref, bind at 1 2 3, ret at 1 2.
    by rewrite Hrun. }
  assert (Htrace :
    (calls w ++ [CallRun (client d) (context qb) (query qb)])
    ++ replicate (S (length es)) (CallNext it) = trace)
    by (subst trace; by rewrite <- app_assoc).
  rewrite Htrace in Hloop. clearbody trace.
  revert Hloop. rewrite Hstart. clear Hstart.
  destruct (is_Done stop); intros Hloop.
  - destruct (be_Cursor B it s3) as [[[c [e|]]|] s4] eqn:Hcur;
      unfold bind at 1; rewrite Hloop;
      unfold it_Cursor, call, bind, ret; simpl; by rewrite Hcur.
  - unfold bind at 1. by rewrite Hloop.
Qed.

(** ** Deleting in chunks *)

Lemma wrap64_small (z : Z) :
  (min_int <= z <= max_int)%Z -> wrap64 z = z.
Proof.
  unfold wrap64, min_int, max_int. intros H.
  rewrite Z.mod_small by lia. lia.
Qed.

Lemma ceil_div_500_lt (n k : nat) : k < ceil_div n 500 <-> k * 500 < n.
Proof.
  unfold ceil_div. change (500 - 1) with 499.
  pose proof (Nat.div_mod_eq (n + 499) 500) as Hdm.
  pose proof (Nat.mod_upper_bound (n + 499) 500) as Hub.
  lia.
Qed.

Lemma chunk_length (keys : list Key) (k : nat) :
  k * 500 < length keys -> 0 < length (chunk keys k) <= 500.
Proof.
  intros H. unfold chunk. rewrite length_take, length_drop. lia.
Qed.

Lemma concat_chunks_from (keys : list Key) (m k : nat) :
  concat (chunk keys <$> seq k m) = take (m * 500) (drop (k * 500) keys).
Proof.
  revert k. induction m as [|m IH]; intros k.
  - done.
  - change (chunk keys <$> seq k (S m))
      with (chunk keys k :: (chunk keys <$> seq (S k) m)).
    change (concat (chunk keys k :: (chunk keys <$> seq (S k) m)))
      with (chunk keys k ++ concat (chunk keys <$> seq (S k) m)).
    rewrite IH. unfold chunk.
    replace (S k * 500) with (k * 500 + 500) by lia.
    replace (S m * 500) with (500 + m * 500) by lia.
    rewrite <- drop_drop. apply take_take_drop.
Qed.

(** The chunks are [ceil(n / 500)] many, none is empty, none has more
    than 500 keys, and together they are the keys. *)
Lemma chunks_shape (keys : list Key) :
  length (chunks keys) = ceil_div (length keys) 500 /\
  Forall (fun c => 0 < length c <= 500) (chunks keys) /\
  concat (chunks keys) = keys.
Proof.
  unfold chunks. split; [|split].
  - by rewrite length_fmap, length_seq.
  - apply Forall_fmap, Forall_forall. intros k Hk.
    apply elem_of_seq in Hk. apply chunk_length, ceil_div_500_lt. lia.
  - rewrite concat_chunks_from. rewrite drop_0. apply take_ge.
    destruct (decide (length keys <= ceil_div (length keys) 500 * 500))
      as [|Hlt]; [done|].
    assert (ceil_div (length keys) 500 < ceil_div (length keys) 500)
      by (apply ceil_div_500_lt; lia).
    lia.
Qed.

Lemma Delete_loop_S (fuel : nat) (qb : QueryBuilder) (keys : list Key)
  (totalKey i : Z) :
  Delete_loop B (S fuel) qb keys totalKey i
  = if (i <? totalKey)%Z
    then
      let end_ := add64 i 500 in
      let end_ := if (end_ >? totalKey)%Z then totalKey else end_ in
      let* batch := deref (slice_range keys i end_) in
      let* d := deref (db qb) in
      let* err := client_DeleteMulti B (client d) (context qb) batch in
      match err with
      | Some e =>
          let* _ := log_Println
                      [log_string "datastore"; log_string (kind qb);
                       log_string "delete"; log_string "delete-multi";
                       log_string "error"; log_error e] in
          ret (Some e)
      | None => Delete_loop B fuel qb keys totalKey (add64 i 500)
      end
    else ret None.
Proof. reflexivity. Qed.

(** The batch cut out at index [k * 500] is the [k]-th chunk. *)
Lemma slice_range_chunk (keys : list Key) (k : nat) :
  k * 500 < length keys ->
  (Z.of_nat (length keys) + 500 <= max_int)%Z ->
  let i := (Z.of_nat k * 500)%Z in
  let totalKey := Z.of_nat (length keys) in
  slice_range keys i
    (if (add64 i 500 >? totalKey)%Z then totalKey else add64 i 500)
  = Some (chunk keys k).
Proof.
  intros Hk Hmax i totalKey. unfold add64.
  rewrite wrap64_small by (unfold min_int, max_int in *; lia).
  unfold slice_range, chunk.
  replace (Z.to_nat i) with (k * 500) by lia.
  destruct (Z.gtb_spec (i + 500) totalKey) as [Hgt | Hle].
  - rewrite !(proj2 (Z.leb_le _ _)) by lia. simpl. f_equal.
    rewrite !take_ge; [done| |]; rewrite length_drop; lia.
  - rewrite !(proj2 (Z.leb_le _ _)) by lia. simpl. f_equal.
    by replace (Z.to_nat (i + 500 - i)) with 500 by lia.
Qed.

(** One turn of the loop at the [k]-th chunk. *)
Lemma Delete_loop_step (fuel : nat) (qb : QueryBuilder) (keys : list Key)
  (k : nat) (d : DB) (s : Store) (cs : list Call)
  (lg : list (list log_arg)) :
  db qb = Some d ->
  k * 500 < length keys ->
  (Z.of_nat (length keys) + 500 <= max_int)%Z ->
  let c := CallDeleteMulti (client d) (context qb) (chunk keys k) in
  Delete_loop B (S fuel) qb keys (Z.of_nat (length keys))
    (Z.of_nat k * 500)%Z {| store := s; calls := cs; logs := lg |}
  = match be_DeleteMulti B (client d) (context qb) (chunk keys k) s with
    | (Some None, s') =>
        Delete_loop B fuel qb keys (Z.of_nat (length keys))
          (Z.of_nat (k + 1) * 500)%Z
          {| store := s'; calls := cs ++ [c]; logs := lg |}
    | (Some (Some e), s') =>
        (Returns (Some (from_backend e)),
         {| store := s'; calls := cs ++ [c];
            logs := lg ++ [[log_string "datastore"; log_string (kind qb);
                            log_string "delete"; log_string "delete-multi";
                            log_string "error";
                            log_error (from_backend e)]] |})
    | (None, s') =>
        (Panics, {| store := s'; calls := cs ++ [c]; logs := lg |})
    end.
Proof.
  intros Hdb Hk Hmax c. rewrite Delete_loop_S.
  rewrite (proj2 (Z.ltb_lt _ _)) by lia. cbv zeta.
  rewrite slice_range_chunk by done. rewrite Hdb.
  replace (add64 (Z.of_nat k * 500) 500) with (Z.of_nat (k + 1) * 500)%Z
    by (unfold add64; rewrite wrap64_small;
        unfold min_int, max_int in *; lia).
  unfold deref, client_DeleteMulti, call, log_Println, bind, ret.
  cbn [store calls logs].
  by destruct (be_DeleteMulti B (client d) (context qb) (chunk keys k) s)
    as [[[e|]|] s'].
Qed.

(** The loop on a backend that deletes the chunks [done_] and then
    answers the next one, if there is one, as it likes. *)
Lemma Delete_loop_run (qb : QueryBuilder) (keys : list Key) (d : DB)
  (done_ : list (list Key)) (s s2 : Store) :
  db qb = Some d ->
  (Z.of_nat (length keys) + 500 <= max_int)%Z ->
  deletes B (client d) (context qb) done_ s s2 ->
  forall (fuel k : nat) (rest : list (list Key)) (cs : list Call)
         (lg : list (list log_arg)),
    chunk keys <$> seq k (length done_ + length rest) = done_ ++ rest ->
    k + (length done_ + length rest) = ceil_div (length keys) 500 ->
    length done_ < fuel ->
    let issue := CallDeleteMulti (client d) (context qb) in
    let run := Delete_loop B fuel qb keys (Z.of_nat (length keys))
                 (Z.of_nat k * 500)%Z
                 {| store := s; calls := cs; logs := lg |} in
    match rest with
    | [] =>
        run = (Returns None,
               {| store := s2; calls := cs ++ (issue <$> done_);
                  logs := lg |})
    | failing :: _ =>
        match be_DeleteMulti B (client d) (context qb) failing s2 with
        | (Some None, _) => True
        | (Some (Some e), s3) =>
            run = (Returns (Some (from_backend e)),
                   {| store := s3;
                      calls := cs ++ (issue <$> done_ ++ [failing]);
                      logs := lg ++ [[log_string "datastore";
                                      log_string (kind qb);
                                      log_string "delete";
                                      log_string "delete-multi";
                                      log_string "error";
                                      log_error (from_backend e)]] |})
        | (None, s3) =>
            run = (Panics,
                   {| store := s3;
                      calls := cs ++ (issue <$> done_ ++ [failing]);
                      logs := lg |})
        end
    end.
Proof.
  intros Hdb Hmax.
  induction 1 as [s | batch s s1 batches s2 Hdel Hdels IH];
    intros fuel k rest cs lg Hseq Htot Hfuel issue run; subst run;
    (destruct fuel as [|fuel]; [cbn [length] in Hfuel; lia|]).
  - destruct rest as [|failing rest].
    + rewrite Delete_loop_S.
      assert (~ k * 500 < length keys) as Hge.
      { rewrite <- ceil_div_500_lt. cbn [length] in Htot. lia. }
      rewrite (proj2 (Z.ltb_ge _ _)) by lia.
      unfold ret. cbn [fmap list_fmap]. by rewrite app_nil_r.
    + cbn [length Nat.add seq fmap list_fmap app] in Hseq, Htot.
      injection Hseq as Hfail _. subst failing.
      rewrite (Delete_loop_step fuel qb keys k d s cs lg Hdb);
        [|apply ceil_div_500_lt; lia|done].
      cbn zeta.
      by destruct (be_DeleteMulti B (client d) (context qb) (chunk keys k) s)
        as [[[e|]|] s'].
  - cbn [length Nat.add seq fmap list_fmap app] in Hseq, Htot, Hfuel.
    injection Hseq as Hbatch Hseq. subst batch.
    rewrite (Delete_loop_step fuel qb keys k d s cs lg Hdb);
      [|apply ceil_div_500_lt; lia|done].
    cbn zeta. rewrite Hdel.
    replace (S k) with (k + 1) in Hseq by lia.
    specialize (IH fuel (k + 1) rest
                  (cs ++ [CallDeleteMulti (client d) (context qb)
                            (chunk keys k)]) lg Hseq).
    cbn zeta in IH. specialize (IH ltac:(lia) ltac:(lia)).
    destruct rest as [|failing rest];
      [|destruct (be_DeleteMulti B (client d) (context qb) failing s2)
          as [[[e|]|] s3]; [|done|]];
      rewrite IH; by rewrite <- app_assoc.
Qed.

(** C2. [Delete] asks for the keys that match, cuts them into
    [ceil(n / 500)] chunks of at most 500 keys and issues one
    [DeleteMulti] call per chunk, in order.  If all calls succeed it
    returns nil after the last chunk.  If the call for a chunk fails,
    [Delete] returns that error at once: the calls made are the ones for
    the chunks before it and the failing one, the backend is left in the
    state the failing call left it in (nothing is undone), and no later
    chunk is attempted. *)
Theorem Delete_in_chunks_of_500 (fuel : nat) (qb : QueryBuilder)
  (w : World Store) (d : DB) (keys : list Key) (loaded : list T)
  (done_ rest : list (list Key)) (s1 s2 : Store) :
  db qb = Some d ->
  be_GetAll B (client d) (context qb) (datastore.KeysOnly (query qb)) false
    (store w)
  = (Some (keys, loaded, None), s1) ->
  (Z.of_nat (length keys) + 500 <= max_int)%Z ->
  chunks keys = done_ ++ rest ->
  deletes B (client d) (context qb) done_ s1 s2 ->
  length done_ < fuel ->
  let issue := CallDeleteMulti (client d) (context qb) in
  let trace := calls w ++ [CallGetAll (client d) (context qb)
                             (datastore.KeysOnly (query qb)) false] in
  (length (chunks keys) = ceil_div (length keys) 500 /\
   Forall (fun c => 0 < length c <= 500) (chunks keys) /\
   concat (chunks keys) = keys) /\
  match rest with
  | [] =>
      Delete B fuel qb w
      = (Returns None,
         {| store := s2; calls := trace ++ (issue <$> chunks keys);
            logs := logs w |})
  | failing :: _ =>
      match be_DeleteMulti B (client d) (context qb) failing s2 with
      | (Some None, _) => True
      | (Some (Some e), s3) =>
          Delete B fuel qb w
          = (Returns (Some (from_backend e)),
             {| store := s3;
                calls := trace ++ (issue <$> done_ ++ [failing]);
                logs := logs w ++ [[log_string "datastore";
                                    log_string (kind qb);
                                    log_string "delete";
                                    log_string "delete-multi";
                                    log_string "error";
                                    log_error (from_backend e)]] |})
      | (None, s3) =>
          Delete B fuel qb w
          = (Panics,
             {| store := s3;
                calls := trace ++ (issue <$> done_ ++ [failing]);
                logs := logs w |})
      end
  end.
Proof.
  intros Hdb Hget Hmax Hchunks Hdels Hfuel issue trace.
  split; [apply chunks_shape|].
  assert (Hstart :
    Delete B fuel qb w
    = Delete_loop B fuel qb keys (Z.of_nat (length keys))
        (Z.of_nat 0 * 500)%Z
        {| store := s1; calls := trace; logs := logs w |}).
  { unfold Delete. rewrite Hdb.
    unfold deref, client_GetAll, call, bind at 1 2 3, ret at 1 2.
    rewrite Hget. cbn [fmap option_fmap option_map].
    destruct (Z.gtb_spec (Z.of_nat (length keys)) 0) as [Hpos | Hzero];
      [done|].
    destruct fuel as [|fuel]; [lia|]. rewrite Delete_loop_S.
    by rewrite (proj2 (Z.ltb_ge _ _)) by lia. }
  rewrite Hstart. clear Hstart.
  assert (Hlen : length done_ + length rest = ceil_div (length keys) 500).
  { rewrite <- length_app, <- Hchunks. apply chunks_shape. }
  pose proof (Delete_loop_run qb keys d done_ s1 s2 Hdb Hmax Hdels
                fuel 0 rest trace (logs w)) as Hrun.
  cbn zeta in Hrun. rewrite Hlen in Hrun. fold (chunks keys) in Hrun.
  specialize (Hrun Hchunks ltac:(lia) Hfuel).
  destruct rest as [|failing rest]; [|exact Hrun].
  rewrite app_nil_r in Hchunks. by rewrite Hchunks.
Qed.

(** ** Fetching by id *)

(** C9. Given ids, at least one, and a backend that answers the lookup
    without an error, [GetMulti] returns as many entities as there were
    ids; the entity at each position is the one stored under the id at
    that position, and a zero value stands where the id has no entity. *)
Theorem GetMulti_keeps_length_and_order (h : option DB) (ctx : Context)
  (k : string) (ids : list string) (w : World Store) (d : DB)
  (found : Key -> option T) (s1 : Store) :
  let keys := (fun id => NameKey k id None) <$> ids in
  ids <> [] ->
  h = Some d ->
  be_GetMulti B (client d) ctx keys (store w) = (Some (found, None), s1) ->
  exists (l : list T) (w' : World Store),
    GetMulti zero B h ctx k ids w = (Returns (Some l, None), w') /\
    length l = length ids /\
    (forall (i : nat) (id : string),
       ids !! i = Some id ->
       l !! i = Some (match found (NameKey k id None) with
                      | Some entity => entity
                      | None => zero
                      end)) /\
    calls w' = calls w ++ [CallGetMulti (client d) ctx keys].
Proof.
  intros keys Hne -> Hrep.
  unfold GetMulti, deref, call, bind, ret. fold keys.
  cbn [store]. rewrite Hrep. eexists _, _. split; [reflexivity|].
  split; [|split; [|done]].
  - subst keys. by rewrite !length_fmap.
  - intros i id Hi. subst keys.
    rewrite !list_lookup_fmap, Hi. simpl.
    by destruct (found (NameKey k id None)).
Qed.

(** ** Builders a caller can make *)

(** Through the exported functions the limit of a builder is never
    negative. *)
Lemma reachable_limit_nonneg (qb : QueryBuilder) :
  reachable B qb -> (0 <= limit qb)%Z.
Proof.
  induction 1 as [| | qb n _ IH | qb n _ IH | | | qb c _ IH
                  | qb f o v _ IH | qb [k|] _ IH |]; simpl; try done.
  - unfold WithLimit. destruct (Z.gtb_spec n 0); simpl; lia.
  - unfold WithOffset. by destruct (n >? 0)%Z.
  - unfold WithCursor. destruct (negb _); [|done].
    by destruct (be_DecodeCursor B c) as [cu [e|]].
  - unfold WithFilter. destruct (String.eqb f FieldKey); [|done].
    by destruct v.
Qed.

End properties.

(** * The theorems on the in-memory backend *)

(** C10 on a project id the backend refuses: the caller gets a handle
    with a nil client and the error. *)
Lemma Connect_returns_handle_witness :
  be_NewClientWithDatabase demo.backend 0 "" "db" [] demo.two_users
  = (Some (None, Some (status 3 "missing project id")), demo.two_users) /\
  exists (h : DB) (w' : World demo.Store),
    Connect demo.backend 0 "" "db" "" (demo.world demo.two_users)
    = (Returns (Some h,
                Some (from_backend (status 3 "missing project id"))), w') /\
    client h = None /\ projectId h = "" /\ databaseId h = "db".
Proof.
  split; [reflexivity|].
  destruct (Connect_returns_handle demo.backend 0 "" "db" ""
              (demo.world demo.two_users) None
              (Some (status 3 "missing project id")) demo.two_users)
    as (h & w' & Hrun & Hh & _); [reflexivity|].
  exists h, w'. split; [exact Hrun|]. by rewrite Hh.
Defined.

(** C4 on a token that decodes. *)
Lemma WithCursor_applies_iff_decodes_witness :
  let qb := Query (Some demo.live) 0 "User" in
  ("c:+" <> "" /\ snd (demo.DecodeCursor "c:+") = None) /\
  usingCursor (WithCursor demo.backend qb "c:+") = true /\
  start (query (WithCursor demo.backend qb "c:+")) = Some (MkCursor "+").
Proof.
  intros qb.
  assert (Hvalid : "c:+" <> "" /\ snd (demo.DecodeCursor "c:+") = None)
    by (split; [discriminate | reflexivity]).
  split; [exact Hvalid|].
  destruct (WithCursor_applies_iff_decodes demo.backend qb "c:+")
    as [Happly _].
  destruct (Happly Hvalid) as (_ & Hstart & Hflag).
  split; [exact Hflag | exact Hstart].
Defined.

(** C5 on a builder already in cursor mode: both flags end up set. *)
Lemma WithLimit_WithOffset_positive_only_witness :
  let qb := WithCursor demo.backend (Query (Some demo.live) 0 "User") "c:+" in
  (0 < 20)%Z /\ usingCursor qb = true /\
  usingOffset (WithOffset qb 20) = true /\
  usingCursor (WithOffset qb 20) = true /\
  WithLimit qb (-1) = qb.
Proof.
  intros qb.
  destruct (WithLimit_WithOffset_positive_only qb 20)
    as (_ & _ & _ & _ & _ & _ & Hboth).
  destruct (WithLimit_WithOffset_positive_only qb (-1))
    as (_ & Hlimit & _).
  split; [lia|]. split; [reflexivity|].
  destruct Hboth as [Ho Hc]; [lia | reflexivity |].
  split; [exact Ho|]. split; [exact Hc|]. apply Hlimit. lia.
Defined.

(** C7 on the two users, counting the active ones. *)
Lemma Total_count_or_aggregation_error_witness :
  let qb := WithFilter (Query (Some demo.live) 0 "User")
              "status" OpEqual (any_string "active") in
  let aq :=
    datastore.WithCount "total" (datastore.NewAggregationQuery (query qb)) in
  let results : gmap string any :=
    {[ "total" := any_pbValue (Some (pb_IntegerValue 1)) ]} in
  db qb = Some demo.live /\
  demo.RunAggregationQuery (Some 1) 0 aq demo.two_users
  = (Some (results, None), demo.two_users) /\
  Total demo.backend qb (demo.world demo.two_users)
  = (Returns (1%Z, None),
     {| store := demo.two_users;
        calls := [CallRunAggregationQuery (Some 1) 0 aq];
        logs := [] |}).
Proof.
  intros qb aq results.
  split; [reflexivity|]. split; [vm_compute; reflexivity|].
  refine (Total_count_or_aggregation_error demo.backend qb
            (demo.world demo.two_users) demo.live results None
            demo.two_users _ _); [reflexivity | vm_compute; reflexivity].
Defined.

(** C8 on a builder limited to [2^62] strings, over the two users: the
    builder is not in offset mode and the backend would load both users
    and then report the end, yet [SelectWithCursor] panics without a
    call to the backend. *)
Lemma SelectWithCursor_panics_beyond_capacity_witness :
  let qb := WithLimit (Query (Some demo.live) 0 "User") (2 ^ 62) in
  let w := demo.world demo.two_users in
  (usingOffset qb = false /\ (demo.max_cap < limit qb)%Z) /\
  SelectWithCursor "" demo.max_cap demo.backend 3 qb w = (Panics, w) /\
  calls w = [] /\
  forall o, SelectWithCursor "" demo.max_cap demo.backend 3 qb w
            <> (Returns o, w).
Proof.
  intros qb w.
  assert (Hbig : (demo.max_cap < limit qb)%Z)
    by (apply Z.ltb_lt; reflexivity).
  split; [split; [reflexivity | exact Hbig]|].
  destruct (SelectWithCursor_panics_beyond_capacity "" demo.max_cap
              demo.backend 3 qb w eq_refl Hbig) as [Hrun Hnot].
  split; [exact Hrun|]. split; [reflexivity | exact Hnot].
Defined.

(** X18 on the two users: both are collected, then the cursor is taken
    from the iterator that was read. *)
Lemma SelectWithCursor_collects_or_aborts_witness :
  let qb := Query (Some demo.live) 0 "User" in
  let s1 := demo.set_iteration (demo.ents demo.two_users) 0 None
              demo.two_users in
  let s2 := demo.set_iteration [] 2 None demo.two_users in
  (usingOffset qb = false /\ (0 <= limit qb <= demo.max_cap)%Z /\
   db qb = Some demo.live) /\
  demo.Run (Some 1) 0 (query qb) demo.two_users = (Some 0, s1) /\
  loads "" demo.backend 0 s1 ["active"; "inactive"] s2 /\
  demo.Next 0 "" s2 = (Some ("", Some iterator_Done), s2) /\
  SelectWithCursor "" demo.max_cap demo.backend 3 qb (demo.world demo.two_users)
  = (Returns (Some ["active"; "inactive"], "c:++", None),
     {| store := s2;
        calls := [CallRun (Some 1) 0 (query qb); CallNext 0; CallNext 0;
                  CallNext 0; CallCursor 0];
        logs := [] |}).
Proof.
  intros qb s1 s2.
  assert (Hloads : loads "" demo.backend 0 s1 ["active"; "inactive"] s2).
  { eapply loads_cons; [reflexivity|].
    eapply loads_cons; [reflexivity|]. apply loads_nil. }
  assert (Hcap : (0 <= limit qb <= demo.max_cap)%Z)
    by (split; apply Z.leb_le; reflexivity).
  split; [split; [reflexivity | split; [exact Hcap | reflexivity]]|].
  split; [reflexivity|]. split; [exact Hloads|]. split; [reflexivity|].
  refine (SelectWithCursor_collects_or_aborts "" demo.max_cap demo.backend 3 qb
            (demo.world demo.two_users) demo.live 0 ["active"; "inactive"]
            "" iterator_Done s1 s2 s2 _ Hcap _ _ Hloads _ _);
    [reflexivity | reflexivity | reflexivity | reflexivity | simpl; lia].
Defined.

(** C2 on 1001 keys of which the one with id 700 is locked: three
    chunks, the first is deleted, the second fails, the third is never
    sent; 501 entities are left. *)
Lemma Delete_in_chunks_of_500_witness :
  let qb := Query (Some demo.live) 0 "Job" in
  let s1 := demo.jobs 1001 [700%Z] in
  let keys := fst <$> demo.ents s1 in
  let s2 := snd (demo.DeleteMulti (Some 1) 0 (chunk keys 0) s1) in
  let refused := from_backend (status 9 "entity is locked") in
  (demo.GetAll (Some 1) 0 (datastore.KeysOnly (query qb)) false s1
   = (Some (keys, [], None), s1) /\
   (Z.of_nat (length keys) + 500 <= max_int)%Z /\
   chunks keys = [chunk keys 0] ++ [chunk keys 1; chunk keys 2] /\
   deletes demo.backend (Some 1) 0 [chunk keys 0] s1 s2) /\
  Delete demo.backend 2 qb (demo.world s1)
  = (Returns (Some refused),
     {| store := s2;
        calls := [CallGetAll (Some 1) 0 (datastore.KeysOnly (query qb)) false;
                  CallDeleteMulti (Some 1) 0 (chunk keys 0);
                  CallDeleteMulti (Some 1) 0 (chunk keys 1)];
        logs := [[log_string "datastore"; log_string "Job";
                  log_string "delete"; log_string "delete-multi";
                  log_string "error"; log_error refused]] |}) /\
  length (demo.ents s2) = 501.
Proof.
  intros qb s1 keys s2 refused.
  assert (Hget : demo.GetAll (Some 1) 0 (datastore.KeysOnly (query qb)) false s1
                 = (Some (keys, [], None), s1))
    by (vm_compute; reflexivity).
  assert (Hmax : (Z.of_nat (length keys) + 500 <= max_int)%Z)
    by (apply Z.leb_le; vm_compute; reflexivity).
  assert (Hchunks :
    chunks keys = [chunk keys 0] ++ [chunk keys 1; chunk keys 2])
    by (vm_compute; reflexivity).
  assert (Hdels : deletes demo.backend (Some 1) 0 [chunk keys 0] s1 s2).
  { eapply deletes_cons; [|apply deletes_nil]. vm_compute; reflexivity. }
  split; [by repeat split|].
  split; [|vm_compute; reflexivity].
  pose proof (Delete_in_chunks_of_500 demo.backend 2 qb (demo.world s1)
                demo.live keys [] [chunk keys 0]
                [chunk keys 1; chunk keys 2] s1 s2
                eq_refl Hget Hmax Hchunks Hdels ltac:(simpl; lia))
    as [_ Hrun].
  cbv zeta iota in Hrun.
  assert (Hfail : be_DeleteMulti demo.backend (client demo.live)
                    (context qb) (chunk keys 1) s2
                  = (Some (Some (status 9 "entity is locked")), s2))
    by (vm_compute; reflexivity).
  rewrite Hfail in Hrun. exact Hrun.
Defined.

(** C9 on the two users and a third id nobody has. *)
Lemma GetMulti_keeps_length_and_order_witness :
  let ids := ["a"; "b"; "c"] in
  let keys := (fun id => NameKey "User" id None) <$> ids in
  (ids <> [] /\
   demo.GetMulti (Some 1) 0 keys demo.two_users
   = (Some (demo.lookup_key demo.two_users, None), demo.two_users)) /\
  exists (l : list string) (w' : World demo.Store),
    GetMulti "" demo.backend (Some demo.live) 0 "User" ids
      (demo.world demo.two_users)
    = (Returns (Some l, None), w') /\
    length l = 3 /\
    l !! 0 = Some "active" /\ l !! 1 = Some "inactive" /\ l !! 2 = Some "".
Proof.
  intros ids keys. split; [split; [discriminate | reflexivity]|].
  destruct (GetMulti_keeps_length_and_order "" demo.backend
              (Some demo.live) 0 "User" ids (demo.world demo.two_users)
              demo.live (demo.lookup_key demo.two_users) demo.two_users)
    as (l & w' & Hrun & Hlen & Hat & _);
    [discriminate | reflexivity | reflexivity |].
  exists l, w'. split; [exact Hrun|]. split; [exact Hlen|].
  split; [|split].
  - exact (Hat 0 "a" eq_refl).
  - exact (Hat 1 "b" eq_refl).
  - exact (Hat 2 "c" eq_refl).
Defined.

(** ** Scenarios *)

(** A filter on the identity pseudo-field with a value that is no
    string leaves the builder as it was. *)
Example WithFilter_key_not_a_string :
  let qb := Query (Some demo.live) 0 "User" in
  WithFilter qb FieldKey OpEqual (any_int 7) = qb /\
  filters (query (WithFilter qb FieldKey OpEqual (any_string "a")))
  = [("__key__", "=", any_Key (Some (NameKey "User" "a" None)))] /\
  filters (query (WithFilter qb "Age" OpGreaterEqual (any_int 18)))
  = [("Age", ">=", any_int 18)].
Proof. by repeat split. Qed.

(** [Select] after [WithCursor] and [SelectWithCursor] after
    [WithOffset] fail before the backend is reached. *)
Example rejected_without_backend_call :
  let qb := Query (Some demo.live) 0 "User" in
  let w := demo.world demo.two_users in
  Select demo.backend (WithCursor demo.backend qb "c:+") w
  = (Returns (None, Some (errors_New "query defined to use cursor")), w) /\
  SelectWithCursor "" demo.max_cap demo.backend 0 (WithOffset qb 1) w
  = (Returns (None, "",
              Some (errors_New
                      "query defined to use offset instead of cursor")), w).
Proof. by split. Qed.

(** The active user is selected, and is the one [Get] answers; a kind
    without entities gives no entity and no error. *)
Example Select_and_Get_active :
  let qb := WithFilter (Query (Some demo.live) 0 "User")
              "status" OpEqual (any_string "active") in
  let w := demo.world demo.two_users in
  fst (Select demo.backend qb w) = Returns (Some ["active"], None) /\
  fst (Get demo.backend qb w) = Returns (Some "active", None) /\
  fst (Get demo.backend (Query (Some demo.live) 0 "Order") w)
  = Returns (None, None).
Proof. by repeat split. Qed.

(** Two pages of one user each, the second started at the cursor of the
    first, make up the unpaginated result. *)
Example pages_by_cursor :
  let page := WithLimit (Query (Some demo.live) 0 "User") 1 in
  let w := demo.world demo.two_users in
  fst (SelectWithCursor "" demo.max_cap demo.backend 3 page w)
  = Returns (Some ["active"], "c:+", None) /\
  fst (SelectWithCursor "" demo.max_cap demo.backend 3
         (WithCursor demo.backend page "c:+") w)
  = Returns (Some ["inactive"], "c:++", None) /\
  fst (Select demo.backend (Query (Some demo.live) 0 "User") w)
  = Returns (Some (["active"] ++ ["inactive"]), None).
Proof. by repeat split. Qed.

(** An entity that cannot be loaded aborts the iteration: the two
    entities read before it are not returned. *)
Example iteration_error_drops_partial_result :
  fst (SelectWithCursor "" demo.max_cap demo.backend 5
         (Query (Some demo.live) 0 "User")
         (demo.world demo.three_users))
  = Returns (None, "", Some (from_backend (status 13 "corrupt entity"))).
Proof. reflexivity. Qed.

(** Without a locked key, 1001 keys go in three calls. *)
Example Delete_three_chunks :
  let out := Delete demo.backend 4 (Query (Some demo.live) 0 "Job")
               (demo.world (demo.jobs 1001 [])) in
  fst out = Returns None /\
  length (calls (snd out)) = 4 /\
  demo.ents (store (snd out)) = [].
Proof. vm_compute. by repeat split. Qed.

(** A handle left by a failed [Connect] panics when it is used, and a
    builder without a handle panics before the backend is reached. *)
Example nil_client_panics :
  fst (Select demo.backend (Query (Some demo.dead) 0 "User")
         (demo.world demo.two_users)) = Panics /\
  Select demo.backend (Query None 0 "User") (demo.world demo.two_users)
  = (Panics, demo.world demo.two_users).
Proof. by split. Qed.

(** * Further properties of the package *)

Section further.

Context {Store T : Type}.
Variable zero : T.
Variable max_cap : Z.
Variable B : Backend Store T.

(** ** Chains of configuration calls *)

Lemma configure_cons (qb : QueryBuilder) (c : Config) (cs : list Config) :
  configure B qb (c :: cs) = configure B (configure1 B qb c) cs.
Proof. reflexivity. Qed.

Lemma q_kind_derive (op : QueryOp) (q : datastore.Query) :
  q_kind (derive op q) = q_kind q.
Proof. reflexivity. Qed.

Lemma orders_derive (op : QueryOp) (q : datastore.Query) :
  orders (derive op q) = orders q ++ match op with
                                     | QOrder f => [f]
                                     | _ => []
                                     end.
Proof.
  unfold orders, derive; simpl. rewrite omap_app. by destruct op.
Qed.

(** What one configuration call leaves alone. *)
Lemma configure1_keeps (qb : QueryBuilder) (c : Config) :
  db (configure1 B qb c) = db qb /\
  kind (configure1 B qb c) = kind qb /\
  context (configure1 B qb c) = context qb /\
  q_kind (query (configure1 B qb c)) = q_kind (query qb).
Proof.
  destruct c as [|n|n|f|f|cu|f o v|[a|]|]; simpl; try done.
  - unfold WithLimit. by destruct (n >? 0)%Z.
  - unfold WithOffset. by destruct (n >? 0)%Z.
  - unfold WithCursor. destruct (negb _); [|done].
    by destruct (be_DecodeCursor B cu) as [x [e|]].
  - unfold WithFilter. destruct (String.eqb f FieldKey); [|done].
    by destruct v.
Qed.

(** X1. Whatever configuration calls follow [Query(db, ctx, kind)], the
    builder keeps the handle, the context and the kind it was made
    with: [DB()] and [Kind()] answer them, and the kind of the query
    handed to the backend is the same kind. *)
Theorem configure_keeps_handle_and_kind (d : option DB) (ctx : Context)
  (k : string) (cs : list Config) :
  let qb := configure B (Query d ctx k) cs in
  QueryBuilder_DB qb = d /\
  QueryBuilder_Kind qb = k /\
  context qb = ctx /\
  q_kind (query qb) = k.
Proof.
  simpl. unfold QueryBuilder_DB, QueryBuilder_Kind.
  assert (Hgen : forall qb,
            db (configure B qb cs) = db qb /\
            kind (configure B qb cs) = kind qb /\
            context (configure B qb cs) = context qb /\
            q_kind (query (configure B qb cs)) = q_kind (query qb)).
  { induction cs as [|c cs IH]; intros qb; [done|].
    rewrite configure_cons.
    destruct (IH (configure1 B qb c)) as (-> & -> & -> & ->).
    apply configure1_keeps. }
  apply (Hgen (Query d ctx k)).
Qed.

Lemma flags_agree_derive (op : QueryOp) (qb : QueryBuilder) :
  match op with
  | QLimit _ | QOffset _ | QStart _ => False
  | _ => True
  end ->
  flags_agree qb -> flags_agree (set_query (derive op (query qb)) qb).
Proof.
  intros Hop (Ho & Hc & Hl & Hlp & Hop').
  unfold flags_agree. simpl.
  rewrite start_derive, limit_of_derive, offset_of_derive.
  by destruct op.
Qed.

Lemma flags_agree_configure1 (qb : QueryBuilder) (c : Config) :
  flags_agree qb -> flags_agree (configure1 B qb c).
Proof.
  intros Hinv.
  destruct c as [|n|n|f|f|cu|f o v|[a|]|]; simpl;
    try (by apply flags_agree_derive); try done.
  - unfold WithLimit. destruct (Z.gtb_spec n 0) as [Hpos|]; [|done].
    destruct Hinv as (Ho & Hc & Hl & Hlp & Hop).
    unfold flags_agree, datastore.Limit. simpl.
    rewrite start_derive, limit_of_derive, offset_of_derive. simpl.
    repeat split; try tauto; try done.
    intros m Hm. by simplify_eq.
  - unfold WithOffset. destruct (Z.gtb_spec n 0) as [Hpos|]; [|done].
    destruct Hinv as (Ho & Hc & Hl & Hlp & Hop).
    unfold flags_agree, datastore.Offset. simpl.
    rewrite start_derive, limit_of_derive, offset_of_derive. simpl.
    repeat split; try tauto; try done.
    intros m Hm. by simplify_eq.
  - unfold WithCursor. destruct (negb _); [|done].
    destruct (be_DecodeCursor B cu) as [x [e|]]; [done|].
    destruct Hinv as (Ho & Hc & Hl & Hlp & Hop).
    unfold flags_agree, datastore.Start. simpl.
    rewrite start_derive, limit_of_derive, offset_of_derive. simpl.
    repeat split; try tauto; try done.
  - unfold WithFilter. destruct (String.eqb f FieldKey).
    + destruct v; try done. by apply flags_agree_derive.
    + by apply flags_agree_derive.
Qed.

(** X2. After any chain of configuration calls on a fresh builder, the
    flags and the limit of the builder agree with the query it hands to
    the backend: offset mode exactly if the query has an offset, cursor
    mode exactly if it has a start position, the same limit, and only
    positive limits and offsets. *)
Theorem configure_flags_agree_with_query (d : option DB) (ctx : Context)
  (k : string) (cs : list Config) :
  flags_agree (configure B (Query d ctx k) cs).
Proof.
  assert (Hgen : forall qb, flags_agree qb -> flags_agree (configure B qb cs)).
  { induction cs as [|c cs IH]; intros qb Hinv; [done|].
    rewrite configure_cons. by apply IH, flags_agree_configure1. }
  apply Hgen. unfold flags_agree, Query; simpl.
  repeat split; try done; intros [x Hx]; done.
Qed.

Ltac unfold_methods :=
  unfold WithDistinct, WithLimit, WithOffset, WithOrder, WithOrderDesc,
    WithAncestorKey, KeysOnly, datastore.Distinct, datastore.Limit,
    datastore.Offset, datastore.Order, datastore.Start,
    datastore.FilterField, datastore.Ancestor, datastore.KeysOnly.

Lemma configure1_filters (qb : QueryBuilder) (c : Config) :
  filters (query (configure1 B qb c))
  = filters (query qb) ++ option_list (added_filter (kind qb) c).
Proof.
  destruct c as [|n|n|f|f|cu|f o v|[a|]|]; simpl; unfold_methods;
    try (by rewrite ?app_nil_r; simpl; rewrite ?filters_derive, ?app_nil_r).
  - destruct (n >? 0)%Z; simpl; by rewrite ?filters_derive, !app_nil_r.
  - destruct (n >? 0)%Z; simpl; by rewrite ?filters_derive, !app_nil_r.
  - unfold WithCursor. destruct (negb _); [|by rewrite app_nil_r].
    destruct (be_DecodeCursor B cu) as [x [e|]]; [by rewrite app_nil_r|].
    simpl. unfold datastore.Start. by rewrite filters_derive, !app_nil_r.
  - unfold WithFilter, FieldKey.
    destruct (String.eqb_spec f "__key__") as [-> | Hne].
    + rewrite decide_True by done.
      destruct v; simpl; rewrite ?app_nil_r; try done.
      unfold datastore.FilterField. by rewrite filters_derive.
    + rewrite decide_False by done. simpl.
      unfold datastore.FilterField. by rewrite filters_derive.
Qed.

Lemma configure1_orders (qb : QueryBuilder) (c : Config) :
  orders (query (configure1 B qb c))
  = orders (query qb) ++ option_list (added_order c).
Proof.
  destruct c as [|n|n|f|f|cu|f o v|[a|]|]; simpl; unfold_methods;
    try (by rewrite ?app_nil_r; simpl; rewrite ?orders_derive, ?app_nil_r).
  - destruct (n >? 0)%Z; simpl; by rewrite ?orders_derive, !app_nil_r.
  - destruct (n >? 0)%Z; simpl; by rewrite ?orders_derive, !app_nil_r.
  - unfold WithCursor. destruct (negb _); [|by rewrite app_nil_r].
    destruct (be_DecodeCursor B cu) as [x [e|]]; [by rewrite app_nil_r|].
    simpl. unfold datastore.Start. by rewrite orders_derive, !app_nil_r.
  - unfold WithFilter. destruct (String.eqb f FieldKey).
    + destruct v; rewrite ?app_nil_r; try done; simpl.
      unfold datastore.FilterField. by rewrite orders_derive, app_nil_r.
    + simpl. unfold datastore.FilterField.
      by rewrite orders_derive, !app_nil_r.
Qed.

Lemma omap_cons_option_list {X Y} (f : X -> option Y) (x : X)
  (l : list X) :
  omap f (x :: l) = option_list (f x) ++ omap f l.
Proof. simpl. by destruct (f x). Qed.

(** X3. The predicates of the query are the ones the [WithFilter] calls
    added, in the order of the calls, after the ones the builder had;
    no other configuration call adds, drops or reorders a predicate,
    and a filter on the identity pseudo-field always takes the kind the
    builder was made with. *)
Theorem configure_filters_in_call_order (qb : QueryBuilder)
  (cs : list Config) :
  filters (query (configure B qb cs))
  = filters (query qb) ++ omap (added_filter (kind qb)) cs.
Proof.
  revert qb. induction cs as [|c cs IH]; intros qb.
  - simpl. by rewrite app_nil_r.
  - rewrite configure_cons, IH, configure1_filters, omap_cons_option_list.
    destruct (configure1_keeps qb c) as (_ & -> & _).
    by rewrite <- app_assoc.
Qed.

(** X4. The sort orders of the query are the fields of the [WithOrder]
    and [WithOrderDesc] calls, in the order of the calls, a descending
    one with ["-"] in front; no other configuration call touches the
    orders. *)
Theorem configure_orders_in_call_order (qb : QueryBuilder)
  (cs : list Config) :
  orders (query (configure B qb cs))
  = orders (query qb) ++ omap added_order cs.
Proof.
  revert qb. induction cs as [|c cs IH]; intros qb.
  - simpl. by rewrite app_nil_r.
  - rewrite configure_cons, IH, configure1_orders, omap_cons_option_list.
    by rewrite <- app_assoc.
Qed.

Lemma configure1_flags_stay (qb : QueryBuilder) (c : Config) :
  (usingOffset qb = true -> usingOffset (configure1 B qb c) = true) /\
  (usingCursor qb = true -> usingCursor (configure1 B qb c) = true).
Proof.
  destruct c as [|n|n|f|f|cu|f o v|[a|]|]; simpl; try done.
  - unfold WithLimit. by destruct (n >? 0)%Z.
  - unfold WithOffset. by destruct (n >? 0)%Z.
  - unfold WithCursor. destruct (negb _); [|done].
    by destruct (be_DecodeCursor B cu) as [x [e|]].
  - unfold WithFilter. destruct (String.eqb f FieldKey); [|done].
    by destruct v.
Qed.

Lemma configure_flags_stay (qb : QueryBuilder) (cs : list Config) :
  (usingOffset qb = true -> usingOffset (configure B qb cs) = true) /\
  (usingCursor qb = true -> usingCursor (configure B qb cs) = true).
Proof.
  revert qb. induction cs as [|c cs IH]; intros qb; [done|].
  rewrite configure_cons.
  destruct (IH (configure1 B qb c)) as [Ho Hc].
  destruct (configure1_flags_stay qb c) as [Ho1 Hc1].
  split; intros H; auto.
Qed.

(** X5. No configuration call takes a builder out of a pagination
    mode.  Once in offset mode, [SelectWithCursor] is rejected after
    any further configuration; once in cursor mode, [Select] and [Get]
    are; the rejection leaves the world as it was. *)
Theorem pagination_mode_is_sticky (qb : QueryBuilder) (cs : list Config)
  (fuel : nat) (w : World Store) :
  (usingOffset qb = true ->
   SelectWithCursor zero max_cap B fuel (configure B qb cs) w
   = (Returns (None, "",
               Some (errors_New
                       "query defined to use offset instead of cursor")),
      w)) /\
  (usingCursor qb = true ->
   Select B (configure B qb cs) w
   = (Returns (None, Some (errors_New "query defined to use cursor")), w) /\
   Get B (configure B qb cs) w
   = (Returns (None, Some (errors_New "query defined to use cursor")), w)).
Proof.
  destruct (configure_flags_stay qb cs) as [Ho Hc].
  split; intros H.
  - unfold SelectWithCursor. by rewrite (Ho H).
  - unfold Select, Get. by rewrite (Hc H).
Qed.

(** ** What the reading functions return and touch *)

Lemma bind_ext {S' X Y} (m : M S' X) (k k' : X -> M S' Y) (w : World S') :
  (forall x w1, k x w1 = k' x w1) -> bind m k w = bind m k' w.
Proof.
  intros H. unfold bind. destruct (m w) as [[x| |] w1]; [apply H|done|done].
Qed.

Lemma SelectWithCursor_loop_inr (fuel : nat) (qb : QueryBuilder)
  (it : Iterator) (result : slice T) (w w' : World Store)
  (r : slice T) (c : string) (oe : option error) :
  SelectWithCursor_loop zero B fuel qb it result w
  = (Returns (inr (r, c, oe)), w') ->
  r = None /\ c = "" /\ is_Some oe.
Proof.
  revert result w. induction fuel as [|fuel IH]; intros result w; simpl.
  - discriminate.
  - unfold bind at 1.
    destruct (it_Next B it zero w) as [[[x [e1|]]| |] w1];
      try discriminate.
    + destruct (errors_Is_Done e1); [discriminate|].
      unfold bind, log_Println, ret. intros H; simplify_eq. eauto.
    + apply IH.
Qed.

(** X6. None of the reading functions returns data next to an error:
    with a non-nil error [Select] returns a nil slice,
    [SelectWithCursor] a nil slice and an empty cursor, [Get] a nil
    entity and [Total] zero. *)
Theorem no_data_beside_an_error (fuel : nat) (qb : QueryBuilder)
  (w : World Store) :
  (forall r e w', Select B qb w = (Returns (r, Some e), w') -> r = None) /\
  (forall r c e w',
     SelectWithCursor zero max_cap B fuel qb w = (Returns (r, c, Some e), w') ->
     r = None /\ c = "") /\
  (forall x e w', Get B qb w = (Returns (x, Some e), w') -> x = None) /\
  (forall n e w', Total B qb w = (Returns (n, Some e), w') -> n = 0%Z).
Proof.
  assert (HS : forall r e w',
            Select B qb w = (Returns (r, Some e), w') -> r = None).
  { intros r e w'. unfold Select.
    destruct (usingCursor qb); [unfold ret; intros H; by simplify_eq|].
    unfold bind at 1. destruct (db qb) as [d|]; simpl; [|discriminate].
    unfold bind at 1.
    destruct (client_GetAll B _ _ _ _ w) as [[[[ks ld] [e1|]]| |] w1];
      try discriminate; unfold bind, log_Println, ret;
      intros H; by simplify_eq. }
  split; [exact HS|]. split; [|split].
  - intros r c e w'. unfold SelectWithCursor.
    destruct (usingOffset qb); [unfold ret; intros H; by simplify_eq|].
    unfold bind at 1. unfold make_slice.
    destruct ((limit qb <? 0) || (max_cap <? limit qb))%Z; [discriminate|].
    unfold ret at 1.
    unfold bind at 1. destruct (db qb) as [d|]; simpl; [|discriminate].
    unfold bind at 1.
    destruct (client_Run B _ _ _ w) as [[it| |] w1]; try discriminate.
    unfold bind at 1.
    destruct (SelectWithCursor_loop _ _ _ _ _ _ w1)
      as [[[res|[[r1 c1] e1]]| |] w2] eqn:HL; try discriminate.
    + unfold bind at 1.
      destruct (it_Cursor B it w2) as [[[cu [e2|]]| |] w3];
        try discriminate; unfold ret; intros H; by simplify_eq.
    + unfold ret. intros H; simplify_eq.
      apply SelectWithCursor_loop_inr in HL. tauto.
  - intros x e w'. unfold Get.
    destruct (usingCursor qb) eqn:Hc; [unfold ret; intros H; by simplify_eq|].
    unfold bind at 1.
    destruct (Select B qb w) as [[[tmp [e1|]]| |] w1]; try discriminate.
    + unfold ret. intros H; by simplify_eq.
    + destruct (0 <? len tmp); [|discriminate].
      unfold bind, ret.
      destruct (slice_at tmp 0 w1) as [[y| |] w2]; discriminate.
  - intros n e w'. unfold Total.
    unfold bind at 1. destruct (db qb) as [d|]; simpl; [|discriminate].
    unfold bind at 1.
    destruct (client_RunAggregationQuery B _ _ _ w)
      as [[[results [e1|]]| |] w1]; try discriminate.
    + unfold ret. intros H; by simplify_eq.
    + destruct (results !! "total") as [[| | | | | |v]|];
        unfold ret; intros H; by simplify_eq.
Qed.

(** X7. [Select] reaches the client library at most once, with
    [GetAll] on the query of the builder as it stands and a destination
    slice; it writes a log line exactly when it returns an error of the
    backend, and the line carries that error.  [Get] leaves the world
    exactly as [Select] does: it adds no call and no log line. *)
Theorem Select_reads_once (qb : QueryBuilder) (w : World Store) :
  let o := fst (Select B qb w) in
  let w' := snd (Select B qb w) in
  (calls w' = calls w \/
   exists d, db qb = Some d /\
             calls w' = calls w ++ [CallGetAll (client d) (context qb)
                                      (query qb) true]) /\
  match o with
  | Returns (_, Some (from_backend b)) =>
      logs w' = logs w ++ [[log_string "datastore"; log_string (kind qb);
                            log_string "select-error";
                            log_error (from_backend b)]]
  | _ => logs w' = logs w
  end /\
  snd (Get B qb w) = w'.
Proof.
  unfold Get, Select.
  destruct (usingCursor qb); simpl; [by eauto|].
  unfold deref, client_GetAll, call, log_Println, bind, ret.
  destruct (db qb) as [d|]; simpl; [|by eauto].
  destruct (be_GetAll B (client d) (context qb) (query qb) true (store w))
    as [[[[ks ld] [e|]]|] s]; simpl;
    (split; [right; by exists d|]); try done.
  split; [done|].
  destruct ld as [|x l]; [done|].
  change (append_all None (x :: l)) with (append_all (Some [x]) l).
  rewrite append_all_Some. simpl. done.
Qed.

(** The loop, when it ends at the [break]: one [Next] for each entity
    collected and one more that reported the end. *)
Lemma SelectWithCursor_loop_inl (fuel : nat) (qb : QueryBuilder)
  (it : Iterator) (acc : list T) (w w' : World Store) (r : slice T) :
  SelectWithCursor_loop zero B fuel qb it (Some acc) w
  = (Returns (inl r), w') ->
  exists es, r = Some (acc ++ es) /\
             calls w' = calls w ++ replicate (S (length es)) (CallNext it) /\
             logs w' = logs w /\
             length es < fuel.
Proof.
  revert acc w. induction fuel as [|fuel IH]; intros acc w; simpl.
  - discriminate.
  - unfold bind at 1. unfold it_Next, call, bind at 1, ret at 1.
    destruct (be_Next B it zero (store w)) as [[[x [e1|]]|] s]; simpl;
      try discriminate.
    + destruct (is_Done e1); [|discriminate].
      unfold ret. intros H; simplify_eq. exists []. simpl.
      rewrite app_nil_r. repeat split; try done; lia.
    + intros H. apply IH in H as (es & -> & Hc & Hl & Hf).
      exists (x :: es). simpl in *.
      rewrite <- app_assoc. split; [done|].
      rewrite Hc, <- app_assoc. repeat split; try done; lia.
Qed.

(** X8. When [SelectWithCursor] returns without an error, the slice it
    returns is not nil, and the calls it made are one [Run] on the
    query of the builder, one [Next] for each entity returned and one
    more, and one [Cursor], all on the same iterator; nothing is
    logged. *)
Theorem SelectWithCursor_success_trace (fuel : nat) (qb : QueryBuilder)
  (w w' : World Store) (r : slice T) (token : string) :
  SelectWithCursor zero max_cap B fuel qb w = (Returns (r, token, None), w') ->
  exists (d : DB) (it : Iterator) (l : list T),
    db qb = Some d /\ usingOffset qb = false /\
    r = Some l /\
    calls w' = calls w ++ [CallRun (client d) (context qb) (query qb)]
               ++ replicate (S (length l)) (CallNext it)
               ++ [CallCursor it] /\
    logs w' = logs w /\
    length l < fuel.
Proof.
  unfold SelectWithCursor.
  destruct (usingOffset qb); [discriminate|].
  unfold bind at 1. unfold make_slice.
  destruct ((limit qb <? 0) || (max_cap <? limit qb))%Z; [discriminate|].
  unfold ret at 1.
  unfold bind at 1. destruct (db qb) as [d|]; simpl; [|discriminate].
  unfold bind at 1. unfold client_Run, call.
  destruct (be_Run B (client d) (context qb) (query qb) (store w))
    as [[it|] s1]; [|discriminate].
  unfold bind at 1.
  destruct (SelectWithCursor_loop _ _ _ _ _ _ _)
    as [[[res|[[r1 c1] e1]]| |] w2] eqn:HL; try discriminate.
  - apply SelectWithCursor_loop_inl in HL as (es & -> & Hc & Hl & Hf).
    simpl in Hc, Hl.
    unfold it_Cursor, call, bind, ret.
    destruct (be_Cursor B it (store w2)) as [[[cu [e2|]]|] s3]; simpl;
      try discriminate.
    intros H; simplify_eq. exists d, it, es. simpl.
    rewrite Hc, <- !app_assoc. done.
  - apply SelectWithCursor_loop_inr in HL as (_ & _ & [e He]).
    unfold ret. intros H; simplify_eq.
Qed.

(** X9. [Total] reaches the client library at most once, with a count
    under the alias ["total"] over the query of the builder as it
    stands, orders, limit and offset included; it never writes a log
    line, whatever it returns; and it does not look at the pagination
    flags or the limit field, so it runs the same on a builder that
    [Select] or [SelectWithCursor] rejects. *)
Theorem Total_reads_once_and_never_logs (qb : QueryBuilder)
  (w : World Store) :
  let w' := snd (Total B qb w) in
  (calls w' = calls w \/
   exists d, db qb = Some d /\
             calls w' = calls w
                        ++ [CallRunAggregationQuery (client d) (context qb)
                              {| aq_query := query qb;
                                 aq_counts := ["total"] |}]) /\
  logs w' = logs w /\
  (forall (o c : bool) (n : Z),
     Total B (set_usingOffset o (set_usingCursor c (set_limit n qb))) w
     = Total B qb w).
Proof.
  split; [|split; [|done]];
    unfold Total, deref, client_RunAggregationQuery, call, bind, ret;
    (destruct (db qb) as [d|]; simpl; [|by eauto]);
    destruct (be_RunAggregationQuery B _ _ _ _)
      as [[[results [e|]]|] s]; simpl; eauto;
    destruct (results !! "total") as [[| | | | | |v]|]; simpl; eauto.
Qed.

(** ** Deleting: edges, independence, bounds *)

(** X10. If the keys-only query fails, [Delete] logs and returns that
    error and deletes nothing, whatever keys came with the error; if it
    finds no key, [Delete] returns nil without a delete call.  In both
    cases the one call made is the keys-only [GetAll]. *)
Theorem Delete_nothing_to_delete (fuel : nat) (qb : QueryBuilder)
  (w : World Store) (d : DB) (keys : list Key) (loaded : list T)
  (err : option datastore.error) (s1 : Store) :
  db qb = Some d ->
  be_GetAll B (client d) (context qb) (datastore.KeysOnly (query qb)) false
    (store w)
  = (Some (keys, loaded, err), s1) ->
  let trace := calls w ++ [CallGetAll (client d) (context qb)
                             (datastore.KeysOnly (query qb)) false] in
  match err, keys with
  | Some e, _ =>
      Delete B fuel qb w
      = (Returns (Some (from_backend e)),
         {| store := s1; calls := trace;
            logs := logs w ++ [[log_string "datastore";
                                log_string (kind qb);
                                log_string "delete"; log_string "get-all";
                                log_string "error";
                                log_error (from_backend e)]] |})
  | None, [] =>
      Delete B fuel qb w
      = (Returns None, {| store := s1; calls := trace; logs := logs w |})
  | None, _ :: _ => True
  end.
Proof.
  intros Hdb Hget trace. unfold Delete. rewrite Hdb.
  unfold deref, client_GetAll, call, log_Println, bind, ret.
  rewrite Hget. by destruct err as [e|], keys as [|k keys].
Qed.

Lemma Delete_loop_reads (fuel : nat) (qb qb' : QueryBuilder)
  (keys : list Key) (totalKey i : Z) (w : World Store) :
  db qb' = db qb -> context qb' = context qb -> kind qb' = kind qb ->
  Delete_loop B fuel qb' keys totalKey i w
  = Delete_loop B fuel qb keys totalKey i w.
Proof.
  intros Hdb Hctx Hkind. revert i w.
  induction fuel as [|fuel IH]; intros i w; [done|].
  rewrite !Delete_loop_S. destruct (i <? totalKey)%Z; [|done].
  cbv zeta. rewrite Hdb, Hctx, Hkind.
  unfold bind at 1 5.
  destruct (deref (slice_range keys i _) w) as [[batch| |] w1]; try done.
  unfold bind at 1 4.
  destruct (deref (db qb) w1) as [[d| |] w2]; try done.
  unfold bind at 1 3.
  destruct (client_DeleteMulti B (client d) (context qb) batch w2)
    as [[[e|]| |] w3]; first [done | apply IH].
Qed.

Lemma Delete_loop_error (fuel : nat) (qb : QueryBuilder) (keys : list Key)
  (totalKey i : Z) (w w' : World Store) (e : error) :
  Delete_loop B fuel qb keys totalKey i w = (Returns (Some e), w') ->
  BackendError e.
Proof.
  revert i w. induction fuel as [|fuel IH]; intros i w; [discriminate|].
  rewrite Delete_loop_S. destruct (i <? totalKey)%Z; [|discriminate].
  cbv zeta. unfold bind at 1.
  destruct (deref (slice_range keys i _) w) as [[batch| |] w1];
    try discriminate.
  unfold bind at 1.
  destruct (deref (db qb) w1) as [[d| |] w2]; try discriminate.
  unfold bind at 1. unfold client_DeleteMulti, call, bind at 1, ret at 1.
  destruct (be_DeleteMulti B (client d) (context qb) batch (store w2))
    as [[[b|]|] s]; simpl; try discriminate.
  - unfold bind, log_Println, ret. intros H; simplify_eq. by exists b.
  - apply IH.
Qed.

(** X11. [Delete] reads the handle, the context, the kind and the
    query of the builder and nothing else: the pagination flags and the
    limit field make no difference, so a builder in offset mode, in
    cursor mode or in both deletes like any other.  Every error
    [Delete] returns is an error of the backend; it is never rejected
    for its pagination mode. *)
Theorem Delete_ignores_pagination_mode (fuel : nat) (qb : QueryBuilder)
  (w : World Store) :
  (forall (o c : bool) (n : Z),
     Delete B fuel (set_usingOffset o (set_usingCursor c (set_limit n qb))) w
     = Delete B fuel qb w) /\
  (forall e w', Delete B fuel qb w = (Returns (Some e), w') ->
                BackendError e /\ ~ PaginationConflict e).
Proof.
  split.
  - intros o c n. unfold Delete. simpl.
    apply bind_ext; intros d w1.
    apply bind_ext; intros [[ks ld] [e|]] w2; [done|].
    destruct (Z.of_nat (length ks) >? 0)%Z; [|done].
    by apply Delete_loop_reads.
  - intros e w' Hrun.
    assert (Hb : BackendError e);
      [|split; [done | by apply backend_not_pagination]].
    revert Hrun. unfold Delete.
    unfold bind at 1.
    destruct (deref (db qb) w) as [[d| |] w1]; try discriminate.
    unfold bind at 1. unfold client_GetAll, call, bind at 1, ret at 1.
    destruct (be_GetAll B _ _ _ _ _) as [[[[ks ld] [b|]]|] s]; simpl;
      try discriminate.
    + unfold bind, log_Println, ret. intros H; simplify_eq. by exists b.
    + destruct (Z.of_nat (length ks) >? 0)%Z; [|discriminate].
      apply Delete_loop_error.
Qed.

Lemma wrap64_range (z : Z) : (min_int <= wrap64 z <= max_int)%Z.
Proof.
  unfold wrap64, min_int, max_int.
  pose proof (Z.mod_pos_bound (z + 2 ^ 63) (2 ^ 64)) as H. lia.
Qed.

(** [i + 500] on 64 bits: the sum, or the sum less [2^64] when it does
    not fit. *)
Lemma add64_500 (i : Z) :
  (min_int <= i <= max_int)%Z ->
  (i + 500 <= max_int /\ add64 i 500 = i + 500)%Z \/
  (max_int < i + 500 /\ add64 i 500 = i + 500 - 2 ^ 64)%Z.
Proof.
  unfold add64, wrap64, min_int, max_int. intros Hi.
  destruct (decide (i + 500 <= 2 ^ 63 - 1)%Z) as [Hfit | Hover].
  - left. split; [done|]. rewrite Z.mod_small by lia. lia.
  - right. split; [lia|].
    replace (i + 500 + 2 ^ 63)%Z
      with ((i + 500 - 2 ^ 63) + 1 * 2 ^ 64)%Z by lia.
    rewrite Z.mod_add by lia. rewrite Z.mod_small by lia. lia.
Qed.

(** A batch the loop cuts out is never empty and never longer than 500,
    for any index the loop can be at. *)
Lemma batch_within_bounds (keys batch : list Key) (i : Z) :
  (min_int <= i <= max_int)%Z ->
  (i < Z.of_nat (length keys))%Z ->
  slice_range keys i
    (if (add64 i 500 >? Z.of_nat (length keys))%Z
     then Z.of_nat (length keys) else add64 i 500)
  = Some batch ->
  0 < length batch <= 500.
Proof.
  intros Hi Hlt. unfold slice_range.
  set (e := if (add64 i 500 >? Z.of_nat (length keys))%Z
            then Z.of_nat (length keys) else add64 i 500).
  destruct ((0 <=? i)%Z && (i <=? e)%Z && (e <=? Z.of_nat (length keys))%Z)
    eqn:Hok; [|discriminate].
  apply andb_prop in Hok as [Hok He]. apply andb_prop in Hok as [H0 Hie].
  apply Z.leb_le in He, H0, Hie.
  intros H; simplify_eq. rewrite length_take, length_drop.
  subst e. destruct (add64_500 i Hi) as [[Hfit Hadd] | [Hover Hadd]];
    rewrite Hadd in *;
    destruct (Z.gtb_spec (i + 500) (Z.of_nat (length keys)));
    destruct (Z.gtb_spec (i + 500 - 2 ^ 64) (Z.of_nat (length keys)));
    unfold min_int, max_int in *; lia.
Qed.

Lemma Delete_loop_batches (qb : QueryBuilder) (keys : list Key) (d : DB)
  (fuel : nat) :
  db qb = Some d ->
  forall (i : Z) (w : World Store),
    (min_int <= i <= max_int)%Z ->
    exists batches,
      calls (snd (Delete_loop B fuel qb keys (Z.of_nat (length keys)) i w))
      = calls w ++ (CallDeleteMulti (client d) (context qb) <$> batches) /\
      Forall (fun b => 0 < length b <= 500) batches.
Proof.
  intros Hdb. induction fuel as [|fuel IH]; intros i w Hi.
  - exists []. simpl. by rewrite app_nil_r.
  - rewrite Delete_loop_S.
    destruct (Z.ltb_spec i (Z.of_nat (length keys))) as [Hlt | Hge];
      [|exists []; simpl; by rewrite app_nil_r].
    cbv zeta.
    destruct (slice_range keys i _) as [batch|] eqn:Hcut;
      [|exists []; simpl; by rewrite app_nil_r].
    apply batch_within_bounds in Hcut; [|done|done].
    rewrite Hdb. unfold deref at 1 2, bind at 1 2, ret at 1 2.
    unfold client_DeleteMulti, call, bind at 1 2, ret at 1.
    destruct (be_DeleteMulti B (client d) (context qb) batch (store w))
      as [[[e|]|] s]; cbn [fmap option_fmap option_map].
    + exists [batch]. split; [reflexivity | by apply Forall_singleton].
    + destruct (IH (add64 i 500)
                  {| store := s;
                     calls := calls w
                              ++ [CallDeleteMulti (client d) (context qb)
                                    batch];
                     logs := logs w |} (wrap64_range _))
        as (batches & Hcalls & Hall).
      exists (batch :: batches). rewrite Hcalls. simpl.
      rewrite <- app_assoc. split; [done|]. by constructor.
    + exists [batch]. split; [reflexivity | by apply Forall_singleton].
Qed.

(** X12. Whatever the backend answers and however far the loop gets,
    the calls [Delete] makes are the keys-only [GetAll] followed by
    [DeleteMulti] calls only, and every one of those carries at least
    one key and at most 500. *)
Theorem Delete_batches_within_bounds (fuel : nat) (qb : QueryBuilder)
  (w : World Store) :
  let w' := snd (Delete B fuel qb w) in
  calls w' = calls w \/
  exists (d : DB) (batches : list (list Key)),
    db qb = Some d /\
    calls w' = calls w
               ++ CallGetAll (client d) (context qb)
                    (datastore.KeysOnly (query qb)) false
               :: (CallDeleteMulti (client d) (context qb) <$> batches) /\
    Forall (fun b => 0 < length b <= 500) batches.
Proof.
  simpl. unfold Delete.
  destruct (db qb) as [d|] eqn:Hdb; [|by left].
  right. exists d.
  unfold deref, client_GetAll, call, bind at 1 2 3, ret at 1 2.
  destruct (be_GetAll B _ _ _ _ _) as [[[[ks ld] [e|]]|] s];
    cbn [fmap option_fmap option_map store calls logs].
  - exists []. by repeat split.
  - destruct (Z.of_nat (length ks) >? 0)%Z; [|exists []; by repeat split].
    edestruct (Delete_loop_batches qb ks d fuel Hdb 0%Z)
      as (batches & Hcalls & Hall);
      [unfold min_int, max_int; lia|].
    exists batches. split; [done|]. rewrite Hcalls. simpl.
    rewrite <- app_assoc. by split.
  - exists []. by repeat split.
Qed.

(** ** Cursors and handles *)

(** X16. If the client library decodes what it encodes, a token
    returned by a successful [SelectWithCursor], unless it is empty, is
    taken by [WithCursor] on any builder: the builder goes into cursor
    mode and its query starts at the very cursor the token was made
    from. *)
Theorem cursor_round_trip (fuel : nat) (qb next : QueryBuilder)
  (w w' : World Store) (r : slice T) (token : string) :
  (forall c, be_DecodeCursor B (be_CursorString B c) = (c, None)) ->
  SelectWithCursor zero max_cap B fuel qb w = (Returns (r, token, None), w') ->
  token <> "" ->
  exists c : Cursor,
    token = be_CursorString B c /\
    WithCursor B next token
    = set_usingCursor true (set_query (datastore.Start c (query next)) next) /\
    usingCursor (WithCursor B next token) = true /\
    start (query (WithCursor B next token)) = Some c.
Proof.
  intros Hlaw Hrun Hne.
  assert (Htok : exists c, token = be_CursorString B c).
  { revert Hrun. unfold SelectWithCursor.
    destruct (usingOffset qb); [discriminate|].
    unfold bind at 1.
    destruct (make_slice T max_cap (limit qb) w) as [[res0| |] w0];
      try discriminate.
    unfold bind at 1.
    destruct (deref (db qb) w0) as [[d| |] w1]; try discriminate.
    unfold bind at 1.
    destruct (client_Run B _ _ _ w1) as [[it| |] w2]; try discriminate.
    unfold bind at 1.
    destruct (SelectWithCursor_loop _ _ _ _ _ _ w2)
      as [[[res|[[r1 c1] e1]]| |] w3] eqn:HL; try discriminate.
    - unfold bind at 1.
      destruct (it_Cursor B it w3) as [[[cu [e2|]]| |] w4];
        try discriminate.
      unfold ret. intros H; simplify_eq. by exists cu.
    - apply SelectWithCursor_loop_inr in HL as (_ & _ & [e He]).
      unfold ret. intros H; simplify_eq. }
  destruct Htok as [c ->]. exists c. split; [done|].
  assert (Hwith :
    WithCursor B next (be_CursorString B c)
    = set_usingCursor true
        (set_query (datastore.Start c (query next)) next)).
  { unfold WithCursor.
    destruct (String.eqb_spec (be_CursorString B c) "") as [Heq | _];
      [done|].
    simpl. by rewrite Hlaw. }
  rewrite Hwith. split; [done|]. split; [done|].
  simpl. unfold datastore.Start. by rewrite start_derive.
Qed.

(** X17. The handle [Connect] returns can always be read: when the
    client library answers at all, [ProjectId] and [DatabaseId] give
    back the identifiers passed to [Connect] and [Client] the client
    the library returned, nil after a failure; [Connect] logs nothing,
    an error included.  On a nil handle the three accessors panic. *)
Theorem Connect_then_accessors (ctx : Context)
  (project database credentialsJSON : string) (w : World Store)
  (c : option Client) (err : option datastore.error) (s1 : Store) :
  let opts := if decide (credentialsJSON = "")
              then []
              else [WithCredentialsJSON credentialsJSON] in
  be_NewClientWithDatabase B ctx project database opts (store w)
  = (Some (c, err), s1) ->
  (exists (h : option DB) (w' : World Store),
     Connect B ctx project database credentialsJSON w
     = (Returns (h, from_backend <$> err), w') /\
     DB_ProjectId h = Returns project /\
     DB_DatabaseId h = Returns database /\
     DB_Client h = Returns c /\
     logs w' = logs w) /\
  DB_ProjectId None = Panics /\
  DB_DatabaseId None = Panics /\
  DB_Client None = Panics.
Proof.
  simpl. intros Hrep. split; [|done].
  unfold Connect, NewClientWithDatabase, bind, call, ret.
  destruct (decide (credentialsJSON = "")) as [-> | Hne]; simpl in *.
  - rewrite Hrep. by eexists _, _.
  - destruct (String.eqb_spec credentialsJSON "") as [Heq | _]; [done|].
    simpl. rewrite Hrep. by eexists _, _.
Qed.

End further.

(** ** Writing *)

Section further_writing.

Context {Store T : Type}.
Variable W : Writer Store T.

(** X13. [Upsert] makes at most one call into the client library: a
    [Put] of the entity under the key made of the builder's kind and
    the given id, without parent.  It reads the handle, the context and
    the kind of the builder and nothing else: the query, its filters
    included, the limit and the pagination flags make no difference.
    It logs exactly when it returns an error, which is then an error of
    the backend. *)
Theorem Upsert_puts_one_key (qb : QueryBuilder) (id : string)
  (data : option T) (w : World (Journal Store T)) :
  let key := {| Kind := kind qb; ID := 0; Name := id; Parent := None |} in
  let o := fst (Upsert W qb id data w) in
  let w' := snd (Upsert W qb id data w) in
  (written (store w') = written (store w) \/
   exists d, db qb = Some d /\
             written (store w')
             = written (store w)
               ++ [CallPut (client d) (context qb) key data]) /\
  calls w' = calls w /\
  match o with
  | Returns (Some e) =>
      BackendError e /\
      logs w' = logs w ++ [[log_string "datastore"; log_string (kind qb);
                            log_string "upsert-error"; log_error e]]
  | _ => logs w' = logs w
  end /\
  (forall (q : datastore.Query) (n : Z) (f c : bool),
     Upsert W
       (set_query q (set_limit n (set_usingOffset f (set_usingCursor c qb))))
       id data w
     = Upsert W qb id data w).
Proof.
  simpl. split; [|split; [|split; [|done]]];
    unfold Upsert, deref, client_Put, write_call, log_Println, bind, ret;
    (destruct (db qb) as [d|]; simpl; [|by eauto]);
    destruct (be_Put W _ _ _ _ _) as [[[k [b|]]|] s]; simpl; eauto.
  split; [by exists b | done].
Qed.

Lemma UpsertMulti_loop (qb : QueryBuilder)
  (visited : list (string * option T)) (keys : list Key)
  (entities : list (option T)) :
  foldl (UpsertMulti_step qb) (keys, entities) visited
  = (keys ++ ((fun e => NameKey (kind qb) (fst e) None) <$> visited),
     entities ++ (snd <$> visited)).
Proof.
  revert keys entities.
  induction visited as [|[id data] visited IH]; intros keys entities; simpl.
  - by rewrite !app_nil_r.
  - rewrite IH. by rewrite <- !app_assoc.
Qed.

Lemma zip_keys_entities (k : string) (visited : list (string * option T)) :
  zip ((fun e => NameKey k (fst e) None) <$> visited) (snd <$> visited)
  = (fun e => (NameKey k (fst e) None, snd e)) <$> visited.
Proof.
  induction visited as [|e visited IH]; simpl; [done|]. f_equal. exact IH.
Qed.

(** X14. [UpsertMulti] with an empty map returns nil and leaves the
    world as it was, on every builder, one without a handle included;
    with a map that is not empty, a builder without a handle panics
    before any call. *)
Theorem UpsertMulti_empty_map (qb : QueryBuilder)
  (items : gmap string (option T)) (visited : list (string * option T))
  (w : World (Journal Store T)) :
  UpsertMulti W qb ∅ visited w = (Returns None, w) /\
  (items <> ∅ -> db qb = None ->
   UpsertMulti W qb items visited w = (Panics, w)).
Proof.
  split; [done|]. intros Hne Hdb. unfold UpsertMulti.
  destruct (Nat.eqb_spec (size items) 0) as [Hz | _].
  - by apply map_size_empty_iff in Hz.
  - rewrite UpsertMulti_loop. by rewrite Hdb.
Qed.

(** X15. [UpsertMulti] with a map that is not empty makes one
    [PutMulti] call with all entries, however many there are: nothing
    is cut into chunks.  Whatever the order in which the map is
    visited, the keys and the entities go in step: there are as many of
    each as the map has entries, no key comes twice, and a key stands
    beside an entity exactly if the map holds that entity under that
    id.  The function returns what the backend answers, an error after
    logging it. *)
Theorem UpsertMulti_one_aligned_batch (qb : QueryBuilder)
  (items : gmap string (option T)) (visited : list (string * option T))
  (w : World (Journal Store T)) (d : DB) :
  visited ≡ₚ map_to_list items ->
  items <> ∅ ->
  db qb = Some d ->
  let keys := (fun e => NameKey (kind qb) (fst e) None) <$> visited in
  let entities := snd <$> visited in
  let o := fst (UpsertMulti W qb items visited w) in
  let w' := snd (UpsertMulti W qb items visited w) in
  written (store w')
  = written (store w) ++ [CallPutMulti (client d) (context qb) keys entities]
  /\ length keys = size items /\ length entities = size items
  /\ NoDup keys
  /\ (forall id data,
        items !! id = Some data <->
        (NameKey (kind qb) id None, data) ∈ zip keys entities)
  /\ match be_PutMulti W (client d) (context qb) keys entities
             (backend_state (store w)) with
     | (Some (_, Some b), s) =>
         o = Returns (Some (from_backend b)) /\
         logs w' = logs w ++ [[log_string "datastore"; log_string (kind qb);
                               log_string "upsert-multi-error";
                               log_error (from_backend b)]]
     | (Some (_, None), s) => o = Returns None /\ logs w' = logs w
     | (None, s) => o = Panics /\ logs w' = logs w
     end.
Proof.
  intros Hperm Hne Hdb keys entities o w'.
  assert (Hrun :
    UpsertMulti W qb items visited w
    = bind (client_PutMulti W (client d) (context qb) keys entities)
        (fun '(_, err) =>
           match err with
           | Some e =>
               let* _ := log_Println
                           [log_string "datastore"; log_string (kind qb);
                            log_string "upsert-multi-error"; log_error e] in
               ret (Some e)
           | None => ret None
           end) w).
  { unfold UpsertMulti.
    destruct (Nat.eqb_spec (size items) 0) as [Hz | _];
      [by apply map_size_empty_iff in Hz|].
    rewrite UpsertMulti_loop. by rewrite Hdb. }
  subst o w'. rewrite Hrun.
  unfold client_PutMulti, write_call, log_Println, bind, ret.
  split; [|split; [|split; [|split; [|split]]]].
  - by destruct (be_PutMulti W _ _ _ _ _) as [[[ks [b|]]|] s].
  - subst keys. by rewrite length_fmap, Hperm, length_map_to_list.
  - subst entities. by rewrite length_fmap, Hperm, length_map_to_list.
  - subst keys.
    assert (Hfst : NoDup (fst <$> visited))
      by (rewrite Hperm; apply NoDup_fst_map_to_list).
    replace ((fun e => NameKey (kind qb) (fst e) None) <$> visited)
      with ((fun id => NameKey (kind qb) id None) <$> (fst <$> visited))
      by (by rewrite <- list_fmap_compose).
    apply NoDup_fmap_2; [|done]. intros a b H. by injection H.
  - intros id data. subst keys entities. rewrite zip_keys_entities.
    rewrite list_elem_of_fmap. split.
    + intros Hin. exists (id, data). split; [done|].
      rewrite Hperm. by apply elem_of_map_to_list.
    + intros ([id' data'] & Heq & Hin). simpl in Heq.
      injection Heq as -> ->.
      rewrite Hperm in Hin. by apply elem_of_map_to_list in Hin.
  - by destruct (be_PutMulti W _ _ _ _ _) as [[[ks [b|]]|] s].
Qed.

End further_writing.

(** * The further theorems on the in-memory backend *)

(** X5 on a builder put in both modes and then configured further. *)
Lemma pagination_mode_is_sticky_witness :
  let qb := WithOffset
              (WithCursor demo.backend (Query (Some demo.live) 0 "User")
                 "c:+") 5 in
  let cs := [CallWithLimit 10; CallWithOffset 0; CallWithCursor "";
             CallWithFilter "status" OpEqual (any_string "active")] in
  let w := demo.world demo.two_users in
  (usingOffset qb = true /\ usingCursor qb = true) /\
  fst (SelectWithCursor "" demo.max_cap demo.backend 3
         (configure demo.backend qb cs) w)
  = Returns (None, "",
             Some (errors_New
                     "query defined to use offset instead of cursor")) /\
  fst (Select demo.backend (configure demo.backend qb cs) w)
  = Returns (None, Some (errors_New "query defined to use cursor")).
Proof.
  intros qb cs w. split; [by split|].
  destruct (pagination_mode_is_sticky "" demo.max_cap demo.backend qb cs 3 w)
    as [Ho Hc].
  rewrite (Ho eq_refl). destruct (Hc eq_refl) as [-> _]. by split.
Defined.

(** X8 on the two users. *)
Lemma SelectWithCursor_success_trace_witness :
  let qb := Query (Some demo.live) 0 "User" in
  let w := demo.world demo.two_users in
  let out := SelectWithCursor "" demo.max_cap demo.backend 3 qb w in
  fst out = Returns (Some ["active"; "inactive"], "c:++", None) /\
  exists (it : Iterator) (l : list string),
    length l = 2 /\
    calls (snd out)
    = [CallRun (Some 1) 0 (query qb)]
      ++ replicate (S (length l)) (CallNext it) ++ [CallCursor it].
Proof.
  intros qb w out. split; [reflexivity|].
  destruct (SelectWithCursor_success_trace "" demo.max_cap demo.backend 3
              qb w (snd out)
              (Some ["active"; "inactive"]) "c:++")
    as (d & it & l & Hdb & _ & Hr & Hcalls & _ & _); [reflexivity|].
  exists it, l. injection Hr as <-. injection Hdb as <-.
  split; [reflexivity | exact Hcalls].
Defined.

(** X10 on a kind without entities: nothing to delete, even without
    fuel. *)
Lemma Delete_nothing_to_delete_witness :
  let qb := Query (Some demo.live) 0 "Order" in
  (db qb = Some demo.live /\
   demo.GetAll (Some 1) 0 (datastore.KeysOnly (query qb)) false
     demo.two_users
   = (Some ([], [], None), demo.two_users)) /\
  Delete demo.backend 0 qb (demo.world demo.two_users)
  = (Returns None,
     {| store := demo.two_users;
        calls := [CallGetAll (Some 1) 0
                    (datastore.KeysOnly (query qb)) false];
        logs := [] |}).
Proof.
  intros qb. split; [by split|].
  refine (Delete_nothing_to_delete demo.backend 0 qb
            (demo.world demo.two_users) demo.live [] [] None
            demo.two_users _ _); reflexivity.
Defined.

Lemma substring_all (s : string) :
  String.substring 0 (String.length s) s = s.
Proof. induction s as [|a s IH]; simpl; [done|]. by rewrite IH. Qed.

(** The in-memory backend decodes what it encodes. *)
Lemma demo_decodes_what_it_encodes (c : Cursor) :
  demo.DecodeCursor (demo.CursorString c) = (c, None).
Proof.
  destruct c as [s]. unfold demo.DecodeCursor, demo.CursorString. simpl.
  change ("" +:+ s) with s.
  replace (String.prefix "" s) with true by (by destruct s).
  by rewrite Nat.sub_0_r, substring_all.
Qed.

(** X16 on the first page of one user: its token starts the next page
    after that user. *)
Lemma cursor_round_trip_witness :
  let page := WithLimit (Query (Some demo.live) 0 "User") 1 in
  let w := demo.world demo.two_users in
  fst (SelectWithCursor "" demo.max_cap demo.backend 3 page w)
  = Returns (Some ["active"], "c:+", None) /\
  "c:+" <> "" /\
  usingCursor (WithCursor demo.backend page "c:+") = true /\
  start (query (WithCursor demo.backend page "c:+")) = Some (MkCursor "+").
Proof.
  intros page w. split; [reflexivity|]. split; [discriminate|].
  destruct (cursor_round_trip "" demo.max_cap demo.backend 3 page page w
              (snd (SelectWithCursor "" demo.max_cap demo.backend 3 page w))
              (Some ["active"]) "c:+" demo_decodes_what_it_encodes)
    as (c & Htok & _ & Hflag & Hstart); [reflexivity | discriminate |].
  split; [exact Hflag|]. rewrite Hstart. f_equal.
  destruct c as [s]. simpl in Htok. injection Htok as Hs.
  change ("+" = s) in Hs. by subst s.
Defined.

(** X17 on a project id the backend refuses. *)
Lemma Connect_then_accessors_witness :
  demo.NewClientWithDatabase 0 "" "db" [] demo.two_users
  = (Some (None, Some (status 3 "missing project id")), demo.two_users) /\
  exists (h : option DB) (w' : World demo.Store),
    Connect demo.backend 0 "" "db" "" (demo.world demo.two_users)
    = (Returns (h, Some (from_backend (status 3 "missing project id"))),
       w') /\
    DB_ProjectId h = Returns "" /\ DB_DatabaseId h = Returns "db" /\
    DB_Client h = Returns None.
Proof.
  split; [reflexivity|].
  destruct (Connect_then_accessors demo.backend 0 "" "db" ""
              (demo.world demo.two_users) None
              (Some (status 3 "missing project id")) demo.two_users)
    as [(h & w' & Hrun & Hp & Hd & Hc & _) _]; [reflexivity|].
  by exists h, w'.
Defined.

(** X14 on the empty map and on a builder without a handle. *)
Lemma UpsertMulti_empty_map_witness :
  let qb := Query None 0 "User" in
  let items : gmap string (option string) := {[ "a" := Some "active" ]} in
  let w := demo_writer.world demo.two_users in
  UpsertMulti demo_writer.writer qb ∅ [] w = (Returns None, w) /\
  (items <> ∅ /\ db qb = None) /\
  UpsertMulti demo_writer.writer qb items (map_to_list items) w
  = (Panics, w).
Proof.
  intros qb items w.
  assert (Hne : items <> ∅) by apply insert_non_empty.
  destruct (UpsertMulti_empty_map demo_writer.writer qb items
              (map_to_list items) w) as [Hempty Hpanic].
  split; [reflexivity|]. split; [by split|]. by apply Hpanic.
Defined.

(** X15 on a map of two users. *)
Lemma UpsertMulti_one_aligned_batch_witness :
  let qb := Query (Some demo.live) 0 "User" in
  let items : gmap string (option string) :=
    {[ "a" := Some "retired"; "c" := Some "active" ]} in
  let visited := map_to_list items in
  let out := UpsertMulti demo_writer.writer qb items visited
               (demo_writer.world demo.two_users) in
  (visited ≡ₚ map_to_list items /\ items <> ∅ /\
   db qb = Some demo.live) /\
  fst out = Returns None /\
  length (written (store (snd out))) = 1 /\
  demo.ents (backend_state (store (snd out)))
  = [demo.user "a" "retired"; demo.user "b" "inactive";
     demo.user "c" "active"].
Proof.
  intros qb items visited out.
  assert (Hne : items <> ∅) by apply insert_non_empty.
  split; [by repeat split|].
  destruct (UpsertMulti_one_aligned_batch demo_writer.writer qb items
              visited (demo_writer.world demo.two_users) demo.live)
    as (Hw & _ & _ & _ & _ & _); [done | done | reflexivity |].
  split; [vm_compute; reflexivity|].
  split; [|vm_compute; reflexivity].
  fold out in Hw. by rewrite Hw.
Defined.

(** ** Further scenarios *)

(** The entities written with [UpsertMulti] are the ones [GetMulti]
    finds, in the order of the ids asked for, with a zero value for an
    id nobody has. *)
Example UpsertMulti_then_GetMulti :
  let qb := Query (Some demo.live) 0 "User" in
  let items : gmap string (option string) :=
    {[ "a" := Some "E1"; "b" := Some "E2" ]} in
  let written_to :=
    backend_state
      (store (snd (UpsertMulti demo_writer.writer qb items
                     (map_to_list items)
                     (demo_writer.world (demo.holding [] []))))) in
  fst (GetMulti "" demo.backend (Some demo.live) 0 "User" ["a"; "b"; "c"]
         (demo.world written_to))
  = Returns (Some ["E1"; "E2"; ""], None).
Proof. vm_compute. reflexivity. Qed.

(** [Upsert] then [Upsert] on the same id keeps one entity, the later
    one; the query of the builder plays no part. *)
Example Upsert_overwrites :
  let qb := WithFilter (Query (Some demo.live) 0 "User")
              "status" OpEqual (any_string "active") in
  let w1 := snd (Upsert demo_writer.writer qb "b" (Some "active")
                   (demo_writer.world demo.two_users)) in
  demo.ents (backend_state (store w1))
  = [demo.user "a" "active"; demo.user "b" "active"] /\
  fst (Upsert demo_writer.writer qb "z" None w1)
  = Returns (Some (from_backend (status 3 "invalid entity type"))).
Proof. by split. Qed.

(** A chain of calls: the flags, the limit, the filters and the orders
    of the builder it leaves. *)
Example configure_chain :
  let qb := configure demo.backend (Query (Some demo.live) 0 "User")
              [CallWithFilter "status" OpEqual (any_string "active");
               CallWithLimit 10; CallWithOrderDesc "CreatedAt";
               CallWithLimit 0; CallWithOffset (-3);
               CallWithFilter "__key__" OpEqual (any_int 7);
               CallWithOrder "Name"] in
  limit qb = 10%Z /\ usingOffset qb = false /\ usingCursor qb = false /\
  filters (query qb) = [("status", "=", any_string "active")] /\
  orders (query qb) = ["-CreatedAt"; "Name"].
Proof. by repeat split. Qed.

(** [Select] on a builder limited to [2^62] reaches the backend and
    answers: it makes no slice of that capacity. *)
Example Select_answers_beyond_capacity :
  let qb := WithLimit (Query (Some demo.live) 0 "User") (2 ^ 62) in
  let w := demo.world demo.two_users in
  fst (Select demo.backend qb w)
  = Returns (Some ["active"; "inactive"], None).
Proof. lazy. reflexivity. Qed.
